(** * Smart finance tracker: ledger store and expense categorizer

    A shallow embedding of [smart_finance_tracker.py]: the SQLite-backed
    [FinanceDatabase], the [ExpenseCategorizer] and the budget form of
    [FinanceTrackerGUI], followed by the properties of the specification
    that concern them.

    Conventions of the embedding.
    - A Python [str] and an SQLite [TEXT] value are a [string] (a sequence of
      bytes, the UTF-8 encoding); SQLite compares [TEXT] with the [BINARY]
      collation, byte by byte, which is [String.compare].
    - An argument that defaults to [None] is an [option].
    - A [REAL] amount is a finite IEEE double, here its exact value, a
      rational of [Q]; [SUM] adds amounts as doubles, rounding each time.
      Infinite amounts and NaN are outside the model.
    - A call that can raise returns a [result]. *)

From Stdlib Require Import List String Ascii ZArith QArith Bool.
From Stdlib Require Import Sorted Permutation Lia.
From Stdlib Require Import Floats.SpecFloat.
From Stdlib Require Import Reals Lra.
Import ListNotations.

Local Close Scope Q_scope.
Local Open Scope Z_scope.
Local Open Scope string_scope.
Local Open Scope list_scope.

(** ** Results of calls that may raise *)

Inductive result (E A : Type) : Type :=
| Ok (a : A)
| Raise (e : E).

Arguments Ok {E A} a.
Arguments Raise {E A} e.

Definition bind {E A B} (c : result E A) (k : A -> result E B) : result E B :=
  match c with
  | Ok a => k a
  | Raise e => Raise e
  end.

Notation "x <- c ;; k" := (bind c (fun x => k))
  (at level 61, c at next level, right associativity).

(** Python's truth value of an optional string argument: [None] and the
    empty string are false. *)
Definition truthy (s : option string) : bool :=
  match s with
  | None => false
  | Some EmptyString => false
  | Some (String _ _) => true
  end.

(** ** ORDER BY

    A stable insertion sort: [before x y] tells that [x] may stand before
    [y].  SQLite leaves the order of rows with equal keys unspecified; the
    embedding keeps them in scan order. *)

Section OrderBy.
Context {A : Type} (before : A -> A -> bool).

Fixpoint place (x : A) (l : list A) : list A :=
  match l with
  | [] => [x]
  | y :: l' => if before x y then x :: y :: l' else y :: place x l'
  end.

Fixpoint order_by (l : list A) : list A :=
  match l with
  | [] => []
  | x :: l' => place x (order_by l')
  end.
End OrderBy.

(** ** Rows of the three tables *)

Module Expense.
Record t : Type := Row {
  id : Z;
  date : string;
  amount : Q;
  description : string;
  category : string;
  payment_method : string;
  created_at : string
}.
End Expense.

Module Budget.
Record t : Type := Row {
  id : Z;
  category : string;
  budget_amount : Q;
  month_year : string
}.
End Budget.

Module Income.
Record t : Type := Row {
  id : Z;
  date : string;
  amount : Q;
  source : string;
  created_at : string
}.
End Income.

(** ** The database file *)

(** A table whose key is [INTEGER PRIMARY KEY AUTOINCREMENT]: its rows in
    rowid order and its entry of [sqlite_sequence], the largest rowid ever
    handed out. *)
Record table (R : Type) : Type := Table {
  rows : list R;
  sqlite_sequence : Z
}.

Arguments Table {R} rows sqlite_sequence.
Arguments rows {R} t.
Arguments sqlite_sequence {R} t.

Definition empty_table {R : Type} : table R := Table [] 0.

(** The content of the file [db_name]: each of the three tables exists or
    not.  [sqlite3.connect] creates a missing file, so a missing file and a
    file with no table are the same state, [no_tables]. *)
Record database : Type := Database {
  expenses : option (table Expense.t);
  budgets : option (table Budget.t);
  income : option (table Income.t)
}.

Definition no_tables : database := Database None None None.

Inductive sqlite_error : Type :=
| no_such_table (name : string)
| database_full.

Definition MAX_ROWID : Z := 9223372036854775807.

Definition largest_rowid {R : Type} (id : R -> Z) (t : table R) : Z :=
  Z.max (sqlite_sequence t) (fold_right Z.max 0 (map id (rows t))).

(** [INSERT] into an AUTOINCREMENT table: the new rowid is one more than
    the largest ever used; when that is the largest 64-bit integer the
    insertion fails with SQLITE_FULL. *)
Definition insert {R : Type} (id : R -> Z) (mk : Z -> R) (t : table R)
  : result sqlite_error (table R) :=
  let largest := largest_rowid id t in
  if (largest <? MAX_ROWID)%Z
  then Ok (Table (rows t ++ [mk (largest + 1)]) (largest + 1))
  else Raise database_full.

Definition table_of {R : Type} (name : string) (o : option (table R))
  : result sqlite_error (table R) :=
  match o with
  | Some t => Ok t
  | None => Raise (no_such_table name)
  end.

(** [CREATE TABLE IF NOT EXISTS]. *)
Definition create_table_if_not_exists {R : Type} (o : option (table R))
  : option (table R) :=
  match o with
  | Some t => Some t
  | None => Some empty_table
  end.

(** ** Double precision

    [SUM] adds the amounts of a group one by one, in the order of the
    rows, as binary64 numbers (SQLite before version 3.44; later versions
    carry a correction term along).  The addition is the one of the IEEE
    standard, rounding to nearest even, taken from [SpecFloat] and read on
    exact values.  A sum beyond the largest double is outside the
    model. *)
Definition double_of_Q (q : Q) : spec_float :=
  SFdiv 53 1024 (binary_normalize 53 1024 (Qnum q) 0 false)
    (binary_normalize 53 1024 (Z.pos (Qden q)) 0 false).

Definition Q_of_double (x : spec_float) : Q :=
  match x with
  | S754_finite s m e =>
      let n := if s then Z.neg m else Z.pos m in
      Qred (match e with
            | Z0 => n # 1
            | Z.pos p => (n * 2 ^ Z.pos p) # 1
            | Z.neg p => n # (2 ^ p)
            end)%Q
  | _ => 0%Q
  end.

Definition double_add (a b : Q) : Q :=
  Q_of_double (SFadd 53 1024 (double_of_Q a) (double_of_Q b)).

(** [date BETWEEN ? AND ?] *)
Definition between (start_date end_date date : string) : bool :=
  String.leb start_date date && String.leb date end_date.

Module FinanceDatabase.

Definition init_database (db : database) : database :=
  let expenses' := create_table_if_not_exists (expenses db) in
  let budgets' := create_table_if_not_exists (budgets db) in
  let income' := create_table_if_not_exists (income db) in
  Database expenses' budgets' income'.

(** [now] is the value of [CURRENT_TIMESTAMP] when the row is inserted.
    The caller's default for [payment_method] is ["Cash"]. *)
Definition add_expense (db : database)
    (date : string) (amount : Q) (description category : string)
    (payment_method : string) (now : string)
  : result sqlite_error database :=
  t <- table_of "expenses" (expenses db) ;;
  t' <- insert Expense.id
          (fun id => Expense.Row id date amount description category
                       payment_method now) t ;;
  Ok (Database (Some t') (budgets db) (income db)).

Definition date_desc (x y : Expense.t) : bool :=
  String.leb (Expense.date y) (Expense.date x).

Definition get_expenses (db : database) (start_date end_date : option string)
  : result sqlite_error (list Expense.t) :=
  t <- table_of "expenses" (expenses db) ;;
  match start_date, end_date with
  | Some s, Some e =>
      if truthy start_date && truthy end_date
      then Ok (order_by date_desc
                 (filter (fun r => between s e (Expense.date r)) (rows t)))
      else Ok (order_by date_desc (rows t))
  | _, _ => Ok (order_by date_desc (rows t))
  end.

(** [GROUP BY category] with [SUM(amount)]: one pass over the rows, a
    running total per category, groups in order of first appearance. *)
Fixpoint add_to_group (category : string) (amount : Q)
    (groups : list (string * Q)) : list (string * Q) :=
  match groups with
  | [] => [(category, double_add 0 amount)]
  | (c, total) :: groups' =>
      if String.eqb c category
      then (c, double_add total amount) :: groups'
      else (c, total) :: add_to_group category amount groups'
  end.

Definition group_by_category (l : list Expense.t) : list (string * Q) :=
  fold_left
    (fun groups r => add_to_group (Expense.category r) (Expense.amount r) groups)
    l [].

Definition total_desc (x y : string * Q) : bool :=
  Qle_bool (snd y) (snd x).

Definition get_category_totals (db : database)
    (start_date end_date : option string)
  : result sqlite_error (list (string * Q)) :=
  t <- table_of "expenses" (expenses db) ;;
  match start_date, end_date with
  | Some s, Some e =>
      if truthy start_date && truthy end_date
      then Ok (order_by total_desc
                 (group_by_category
                    (filter (fun r => between s e (Expense.date r)) (rows t))))
      else Ok (order_by total_desc (group_by_category (rows t)))
  | _, _ => Ok (order_by total_desc (group_by_category (rows t)))
  end.

End FinanceDatabase.

(** Rows of a table that may not exist. *)
Definition content {R : Type} (o : option (table R)) : table R :=
  match o with
  | Some t => t
  | None => empty_table
  end.

Definition expense_rows (db : database) : list Expense.t := rows (content (expenses db)).
Definition budget_rows (db : database) : list Budget.t := rows (content (budgets db)).
Definition income_rows (db : database) : list Income.t := rows (content (income db)).

(** Names of the tables of [sqlite_master]. *)
Definition named {R : Type} (name : string) (o : option (table R)) : list string :=
  match o with
  | Some _ => [name]
  | None => []
  end.

Definition table_names (db : database) : list string :=
  named "expenses" (expenses db) ++ named "budgets" (budgets db) ++
  named "income" (income db).

(** The methods of [FinanceDatabase], as calls on the database file. *)
Inductive call : Type :=
| call_init_database
| call_add_expense (date : string) (amount : Q) (description category : string)
    (payment_method : string) (now : string)
| call_get_expenses (start_date end_date : option string)
| call_get_category_totals (start_date end_date : option string).

Definition run (c : call) (db : database) : result sqlite_error database :=
  match c with
  | call_init_database => Ok (FinanceDatabase.init_database db)
  | call_add_expense date amount description category payment_method now =>
      FinanceDatabase.add_expense db date amount description category
        payment_method now
  | call_get_expenses s e =>
      _ <- FinanceDatabase.get_expenses db s e ;; Ok db
  | call_get_category_totals s e =>
      _ <- FinanceDatabase.get_category_totals db s e ;; Ok db
  end.

(** ** The budget form of the window *)

Module FinanceTrackerGUI.

(** The part of the window that [set_budget] touches: the database and
    the two variables of the budget form. *)
Record t : Type := Window {
  db : database;
  budget_category_var : string;
  budget_amount_var : string
}.

Inductive messagebox : Type :=
| showerror (title message : string)
| showinfo_budget_set (category : string) (amount : Q).

Definition is_empty (s : string) : bool :=
  match s with
  | EmptyString => true
  | String _ _ => false
  end.

Section SetBudget.
(** Python's [float] on a string; [None] stands for [ValueError]. *)
Variable float : string -> option Q.

Definition set_budget (self : t) : t * messagebox :=
  let category := budget_category_var self in
  let amount := budget_amount_var self in
  if is_empty category || is_empty amount
  then (self, showerror "Error" "Please fill all fields")
  else
    match float amount with
    | Some amount' =>
        (Window (db self) "" "", showinfo_budget_set category amount')
    | None => (self, showerror "Error" "Please enter a valid amount")
    end.

(** The user fills the form and presses the button. *)
Definition press_set_budget (category amount : string) (self : t) : t :=
  fst (set_budget (Window (db self) category amount)).
End SetBudget.

End FinanceTrackerGUI.

(** ** The categorizer *)

Inductive exception : Type :=
| Exception (what : string).

(** What the code uses of a fitted scikit-learn pipeline.  A probability is
    an IEEE double, here its exact rational value. *)
Record Pipeline : Type := {
  predict : string -> result exception string;
  predict_proba : string -> result exception (list Q)
}.

(** Python's [max] of a sequence: the first of the largest elements;
    [ValueError] on an empty one. *)
Definition max_of (l : list Q) : result exception Q :=
  match l with
  | [] => Raise (Exception "ValueError")
  | p :: l' => Ok (fold_left (fun m x => if Qle_bool x m then m else x) l' p)
  end.

(** The literal [0.3].  No double lies strictly between the double that
    the literal denotes and 3/10, so a double exceeds one exactly when it
    exceeds the other. *)
Definition threshold : Q := (3 # 10)%Q.

Module ExpenseCategorizer.

Definition categories : list string :=
  [ "Food & Dining"; "Transportation"; "Shopping"; "Entertainment";
    "Bills & Utilities"; "Healthcare"; "Education"; "Travel";
    "Personal Care"; "Home & Garden"; "Miscellaneous" ].

Definition training_data : list (string * string) :=
  [ ("pizza delivery", "Food & Dining");
    ("grocery store", "Food & Dining");
    ("restaurant bill", "Food & Dining");
    ("coffee shop", "Food & Dining");
    ("gas station", "Transportation");
    ("uber ride", "Transportation");
    ("bus ticket", "Transportation");
    ("car maintenance", "Transportation");
    ("amazon purchase", "Shopping");
    ("clothing store", "Shopping");
    ("electronics", "Shopping");
    ("movie tickets", "Entertainment");
    ("concert", "Entertainment");
    ("streaming service", "Entertainment");
    ("electricity bill", "Bills & Utilities");
    ("phone bill", "Bills & Utilities");
    ("internet", "Bills & Utilities");
    ("doctor visit", "Healthcare");
    ("pharmacy", "Healthcare");
    ("dental", "Healthcare");
    ("tuition", "Education");
    ("books", "Education");
    ("hotel", "Travel");
    ("flight", "Travel");
    ("haircut", "Personal Care");
    ("cosmetics", "Personal Care");
    ("home depot", "Home & Garden");
    ("garden supplies", "Home & Garden") ].

(** The file [expense_categorizer.pkl]: absent, or what [pickle.load]
    gives for it, an exception or the stored object ([None] for an object
    that is false as a condition). *)
Definition pickle_file : Type := option (result exception (option Pipeline)).

(** [self.model] and the file. *)
Record t : Type := Categorizer {
  model : option Pipeline;
  pkl : pickle_file
}.

Section Library.
(** [str.lower], and [Pipeline([tfidf, classifier]).fit] of
    scikit-learn on the descriptions and their labels. *)
Variable lower : string -> string.
Variable fit : list string -> list string -> Pipeline.

(** [can_write] tells whether the file can be written; a failure is
    swallowed. *)
Definition save_model (can_write : bool) (self : t) : t :=
  if can_write
  then Categorizer (model self) (Some (Ok (model self)))
  else self.

Definition create_initial_model (can_write : bool) (self : t) : t :=
  let descriptions := map fst training_data in
  let categories := map snd training_data in
  save_model can_write
    (Categorizer (Some (fit descriptions categories)) (pkl self)).

Definition load_or_create_model (can_write : bool) (self : t) : t :=
  match pkl self with
  | Some (Ok m) => Categorizer m (pkl self)
  | Some (Raise _) => create_initial_model can_write self
  | None => create_initial_model can_write self
  end.

Definition init (can_write : bool) (file : pickle_file) : t :=
  load_or_create_model can_write (Categorizer None file).

(** The body of the [try]: [Some c] when it returns [c], [None] when
    control reaches its end. *)
Definition categorize_try (self : t) (description : string)
  : result exception (option string) :=
  match model self with
  | Some m =>
      prediction <- predict m (lower description) ;;
      probabilities <- predict_proba m (lower description) ;;
      confidence <- max_of probabilities ;;
      Ok (Some (if Qle_bool confidence threshold
                then "Miscellaneous" else prediction))
  | None => Ok None
  end.

Definition categorize (self : t) (description : string)
  : result exception string :=
  match categorize_try self description with
  | Ok (Some c) => Ok c
  | Ok None => Ok "Miscellaneous"
  | Raise _ => Ok "Miscellaneous"
  end.
End Library.

End ExpenseCategorizer.

(** ** Queries as one filter *)

(** Whether a date is read by a query with the given bounds: within the
    bounds when both are given and non-empty, always otherwise. *)
Definition in_range (start_date end_date : option string) (date : string) : bool :=
  match start_date, end_date with
  | Some (String a s), Some (String b e) =>
      between (String a s) (String b e) date
  | _, _ => true
  end.


Definition double_sum (l : list Expense.t) : Q :=
  fold_left double_add (map Expense.amount l) 0%Q.

(** The total of a category among the groups, if it has one. *)
Fixpoint total_of (category : string) (groups : list (string * Q)) : option Q :=
  match groups with
  | [] => None
  | (c, total) :: groups' =>
      if String.eqb c category then Some total else total_of category groups'
  end.

Definition of_category (category : string) (l : list Expense.t) : list Expense.t :=
  filter (fun r => String.eqb (Expense.category r) category) l.

(** Calling [init_database] [n] times. *)
Definition startups (n : nat) (db : database) : database :=
  Nat.iter n FinanceDatabase.init_database db.

(** ** Sample ledgers *)

Definition fresh_ledger : database := FinanceDatabase.init_database no_tables.

Definition hotel : Expense.t :=
  Expense.Row 1 "2025-06-01" (120 # 1) "hotel" "Travel" "Credit Card"
    "2025-06-01 09:30:00".

Definition pizza : Expense.t :=
  Expense.Row 2 "2024-03-10" (18 # 1) "pizza delivery" "Food & Dining" "Cash"
    "2024-03-10 20:15:00".

Definition coffee : Expense.t :=
  Expense.Row 3 "2024-03-12" (7 # 2) "coffee shop" "Food & Dining" "Cash"
    "2024-03-12 08:05:00".

Definition ledger (l : list Expense.t) (seq : Z) : database :=
  Database (Some (Table l seq)) (Some empty_table) (Some empty_table).





Definition one_expense : database := ledger [hotel] 1.
Definition three_expenses : database := ledger [hotel; pizza; coffee] 3.

Fixpoint run_all (cs : list call) (db : database) : result sqlite_error database :=
  match cs with
  | [] => Ok db
  | c :: cs' => db' <- run c db ;; run_all cs' db'
  end.

Definition budgets_of (category : string) (db : database) : list Budget.t :=
  filter (fun b => String.eqb (Budget.category b) category) (budget_rows db).

(** A new window on a fresh database, in which the budget of
    ["Food & Dining"] is set to 100 and then to 250. *)
Definition budget_set_twice (float : string -> option Q) : FinanceTrackerGUI.t :=
  FinanceTrackerGUI.press_set_budget float "Food & Dining" "250"
    (FinanceTrackerGUI.press_set_budget float "Food & Dining" "100"
       (FinanceTrackerGUI.Window fresh_ledger "" "")).

(** ** Assumptions on what the categorizer loads and fits *)

(** A fitted scikit-learn classifier predicts one of the labels it was
    fitted on, its [classes_]. *)
Definition predicts_fitted_labels
    (fit : list string -> list string -> Pipeline) : Prop :=
  forall (X y : list string) (d p : string),
    predict (fit X y) d = Ok p -> In p y.

(** The file is absent, or cannot be loaded, or holds the model that
    [create_initial_model] saved. *)
Definition saved_by_categorizer
    (fit : list string -> list string -> Pipeline)
    (file : ExpenseCategorizer.pickle_file) : Prop :=
  file = None \/
  (exists e, file = Some (Raise e)) \/
  file = Some (Ok (Some (fit (map fst ExpenseCategorizer.training_data)
                           (map snd ExpenseCategorizer.training_data)))).

(** A stand-in for a fitted pipeline, to run the definitions: it predicts
    the label of the first example that equals the description, with
    probability 9/10, and raises when there is none. *)
Fixpoint label_of (X y : list string) (d : string) : option string :=
  match X, y with
  | x :: X', l :: y' => if String.eqb x d then Some l else label_of X' y' d
  | _, _ => None
  end.

Definition lookup_fit (X y : list string) : Pipeline :=
  {| predict := fun d =>
       match label_of X y d with
       | Some l => Ok l
       | None => Raise (Exception "ValueError")
       end;
     predict_proba := fun d =>
       match label_of X y d with
       | Some _ => Ok [(9 # 10)%Q; (1 # 10)%Q]
       | None => Raise (Exception "ValueError")
       end |}.

(** [str.lower] on ASCII text. *)
Definition lower_ascii (c : ascii) : ascii :=
  let n := nat_of_ascii c in
  if (65 <=? n)%nat && (n <=? 90)%nat then ascii_of_nat (n + 32) else c.

Fixpoint lower_text (s : string) : string :=
  match s with
  | EmptyString => EmptyString
  | String c s' => String (lower_ascii c) (lower_text s')
  end.

(** ** Notions for the ledger as a whole *)

(** The expenses carry the identifiers 1, 2, 3, ... in the order of their
    insertion, and the counter of the table stands at the last of them. *)
Definition numbered (db : database) : Prop :=
  match expenses db with
  | Some t =>
      map Expense.id (rows t) = map Z.of_nat (seq 1 (List.length (rows t))) /\
      sqlite_sequence t = Z.of_nat (List.length (rows t))
  | None => True
  end.

Definition two_expenses : database := ledger [hotel; pizza] 2.

(** ** The window: expense form, table and buttons *)

Module Window.

Inductive messagebox : Type :=
| showerror (title message : string)
| showinfo (title message : string)
| showinfo_budget_set (category : string) (amount : Q).

(** What a handler leaves behind besides the new state: the dialogs it
    shows, and the exception that leaves it uncaught. *)
Inductive event : Type :=
| dialog (m : messagebox)
| uncaught (e : sqlite_error)
| uncaught_exception (e : exception).

(** A line of the table: date, amount as text, description, category and
    payment method. *)
Definition tree_row : Type := (string * string * string * string * string)%type.

Record t : Type := Make {
  db : database;
  categorizer : ExpenseCategorizer.t;
  date_var : string;
  amount_var : string;
  description_var : string;
  category_var : string;
  payment_var : string;
  start_date_var : string;
  end_date_var : string;
  budget_category_var : string;
  budget_amount_var : string;
  expenses_tree : list tree_row
}.

Definition is_empty (s : string) : bool :=
  match s with
  | EmptyString => true
  | String _ _ => false
  end.

Definition newline : string := String (ascii_of_nat 10) EmptyString.

Section Handlers.
(** Python's [float] on a string ([None] for [ValueError]), [str.lower],
    and the text of an amount under the format [.2f]. *)
Variable float : string -> option Q.
Variable lower : string -> string.
Variable two_decimals : Q -> string.

Definition with_tree (self : t) (tree : list tree_row) : t :=
  Make (db self) (categorizer self) (date_var self) (amount_var self)
    (description_var self) (category_var self) (payment_var self)
    (start_date_var self) (end_date_var self)
    (budget_category_var self) (budget_amount_var self) tree.

Definition tree_row_of (expense : Expense.t) : tree_row :=
  (Expense.date expense,
   String.append "$" (two_decimals (Expense.amount expense)),
   Expense.description expense, Expense.category expense,
   Expense.payment_method expense).

(** The table is emptied before the query: when the query raises, it
    stays empty. *)
Definition refresh_expenses_table (self : t) : t * list event :=
  let start_date := start_date_var self in
  let end_date := end_date_var self in
  match FinanceDatabase.get_expenses (db self) (Some start_date) (Some end_date) with
  | Ok expenses_df => (with_tree self (map tree_row_of expenses_df), [])
  | Raise e => (with_tree self [], [uncaught e])
  end.

(** [refresh_analytics], which follows the table, draws the charts and
    catches every exception: it changes nothing of this state. *)
Definition refresh_data (self : t) : t * list event :=
  refresh_expenses_table self.

Definition auto_categorize (self : t) : t * list event :=
  let description := description_var self in
  if is_empty description then (self, [])
  else
    match ExpenseCategorizer.categorize lower (categorizer self) description with
    | Ok category =>
        (Make (db self) (categorizer self) (date_var self) (amount_var self)
           (description_var self) category (payment_var self)
           (start_date_var self) (end_date_var self)
           (budget_category_var self) (budget_amount_var self)
           (expenses_tree self),
         [dialog (showinfo "Auto Categorization"
                    (String.append "Suggested category: " category))])
    | Raise e => (self, [uncaught_exception e])
    end.

(** [now] is the value of [CURRENT_TIMESTAMP] at the insertion.  A float
    is false as a condition when it is zero. *)
Definition add_expense (now : string) (self : t) : t * list event :=
  let date := date_var self in
  match float (amount_var self) with
  | None => (self, [dialog (showerror "Error" "Please enter a valid amount")])
  | Some amount =>
      let description := description_var self in
      let category := category_var self in
      let payment_method := payment_var self in
      if is_empty date || Qeq_bool amount 0 || is_empty description
         || is_empty category
      then (self, [dialog (showerror "Error" "Please fill all required fields")])
      else
        match FinanceDatabase.add_expense (db self) date amount description
                category payment_method now with
        | Raise e => (self, [uncaught e])
        | Ok db' =>
            let cleared :=
              Make db' (categorizer self) (date_var self) "" "" ""
                (payment_var self) (start_date_var self) (end_date_var self)
                (budget_category_var self) (budget_amount_var self)
                (expenses_tree self) in
            let (self', events) := refresh_data cleared in
            (self',
             dialog (showinfo "Success" "Expense added successfully!") :: events)
        end
  end.

(** [file_path] is what the file dialog returns, empty when it is
    cancelled; [today] is the date of the day. *)
Definition upload_receipt (file_path today : string) (self : t) : t * list event :=
  if is_empty file_path then (self, [])
  else
    (Make (db self) (categorizer self) (date_var self) "25.50"
       "Grocery Store Purchase" "Food & Dining" (payment_var self)
       (start_date_var self) (end_date_var self)
       (budget_category_var self) (budget_amount_var self)
       (expenses_tree self),
     [dialog (showinfo "Receipt Processing"
                (String.concat newline
                   ["Receipt processed! Extracted data:"; "";
                    "Amount: $25.50";
                    "Description: Grocery Store Purchase";
                    String.append "Date: " today]))]).

Definition set_budget (self : t) : t * list event :=
  let category := budget_category_var self in
  let amount := budget_amount_var self in
  if is_empty category || is_empty amount
  then (self, [dialog (showerror "Error" "Please fill all fields")])
  else
    match float amount with
    | Some amount' =>
        (Make (db self) (categorizer self) (date_var self) (amount_var self)
           (description_var self) (category_var self) (payment_var self)
           (start_date_var self) (end_date_var self) "" ""
           (expenses_tree self),
         [dialog (showinfo_budget_set category amount')])
    | None => (self, [dialog (showerror "Error" "Please enter a valid amount")])
    end.

(** What the user does: typing into a field, choosing in a list, pressing
    a button. *)
Inductive action : Type :=
| type_date (s : string)
| type_amount (s : string)
| type_description (s : string)
| type_category (s : string)
| type_payment (s : string)
| type_start_date (s : string)
| type_end_date (s : string)
| type_budget_category (s : string)
| type_budget_amount (s : string)
| press_auto_categorize
| press_add_expense (now : string)
| press_upload_receipt (file_path today : string)
| press_refresh
| press_set_budget.

Definition perform (a : action) (self : t) : t * list event :=
  match a with
  | type_date s =>
      (Make (db self) (categorizer self) s (amount_var self)
         (description_var self) (category_var self) (payment_var self)
         (start_date_var self) (end_date_var self)
         (budget_category_var self) (budget_amount_var self)
         (expenses_tree self), [])
  | type_amount s =>
      (Make (db self) (categorizer self) (date_var self) s
         (description_var self) (category_var self) (payment_var self)
         (start_date_var self) (end_date_var self)
         (budget_category_var self) (budget_amount_var self)
         (expenses_tree self), [])
  | type_description s =>
      (Make (db self) (categorizer self) (date_var self) (amount_var self)
         s (category_var self) (payment_var self)
         (start_date_var self) (end_date_var self)
         (budget_category_var self) (budget_amount_var self)
         (expenses_tree self), [])
  | type_category s =>
      (Make (db self) (categorizer self) (date_var self) (amount_var self)
         (description_var self) s (payment_var self)
         (start_date_var self) (end_date_var self)
         (budget_category_var self) (budget_amount_var self)
         (expenses_tree self), [])
  | type_payment s =>
      (Make (db self) (categorizer self) (date_var self) (amount_var self)
         (description_var self) (category_var self) s
         (start_date_var self) (end_date_var self)
         (budget_category_var self) (budget_amount_var self)
         (expenses_tree self), [])
  | type_start_date s =>
      (Make (db self) (categorizer self) (date_var self) (amount_var self)
         (description_var self) (category_var self) (payment_var self)
         s (end_date_var self)
         (budget_category_var self) (budget_amount_var self)
         (expenses_tree self), [])
  | type_end_date s =>
      (Make (db self) (categorizer self) (date_var self) (amount_var self)
         (description_var self) (category_var self) (payment_var self)
         (start_date_var self) s
         (budget_category_var self) (budget_amount_var self)
         (expenses_tree self), [])
  | type_budget_category s =>
      (Make (db self) (categorizer self) (date_var self) (amount_var self)
         (description_var self) (category_var self) (payment_var self)
         (start_date_var self) (end_date_var self)
         s (budget_amount_var self) (expenses_tree self), [])
  | type_budget_amount s =>
      (Make (db self) (categorizer self) (date_var self) (amount_var self)
         (description_var self) (category_var self) (payment_var self)
         (start_date_var self) (end_date_var self)
         (budget_category_var self) s (expenses_tree self), [])
  | press_auto_categorize => auto_categorize self
  | press_add_expense now => add_expense now self
  | press_upload_receipt file_path today => upload_receipt file_path today self
  | press_refresh => refresh_data self
  | press_set_budget => set_budget self
  end.

Fixpoint session (actions : list action) (self : t) : t :=
  match actions with
  | [] => self
  | a :: actions' => session actions' (fst (perform a self))
  end.
End Handlers.

End Window.

(** A stored expense as the form lets it through: date, description and
    category filled in, and an amount other than zero. *)
Definition filled_in (r : Expense.t) : Prop :=
  Expense.date r <> "" /\ Expense.description r <> "" /\
  Expense.category r <> "" /\ ~ (Expense.amount r == 0)%Q.

(** Stand-ins for [float] and for the format of amounts, to run the
    handlers: whole numbers of one or two digits. *)
Definition digit_of (c : ascii) : option Z :=
  let n := Z.of_nat (nat_of_ascii c) in
  if (48 <=? n)%Z && (n <=? 57)%Z then Some (n - 48) else None.

Definition whole_float (s : string) : option Q :=
  match s with
  | String a EmptyString =>
      match digit_of a with
      | Some x => Some (x # 1)%Q
      | None => None
      end
  | String a (String b EmptyString) =>
      match digit_of a, digit_of b with
      | Some x, Some y => Some ((10 * x + y) # 1)%Q
      | _, _ => None
      end
  | _ => None
  end.

Definition two_digits (n : Z) : string :=
  String (ascii_of_nat (48 + Z.to_nat (n / 10)))
    (String (ascii_of_nat (48 + Z.to_nat (n mod 10))) EmptyString).

Definition whole_text (q : Q) : string :=
  String.append (two_digits (Qnum q / Z.pos (Qden q))) ".00".

Definition sample_window (db : database) : Window.t :=
  Window.Make db (ExpenseCategorizer.init lookup_fit true None)
    "2024-03-10" "" "" "" "Cash" "2024-03-01" "2024-03-31" "" "" [].

Definition filled_window (db : database) (amount : string) : Window.t :=
  Window.Make db (ExpenseCategorizer.init lookup_fit true None)
    "2024-03-10" amount "pizza delivery" "Food & Dining" "Cash"
    "2024-03-01" "2024-03-31" "" "" [].

Definition pizza_first : Expense.t :=
  Expense.Row 1 "2024-03-10" (18 # 1) "pizza delivery" "Food & Dining" "Cash"
    "2024-03-10 20:15:00".

(** * Properties *)

(** ** Sorting *)

Section OrderByFacts.
Context {A : Type} (before : A -> A -> bool).

Lemma place_perm (x : A) (l : list A) :
  Permutation (place before x l) (x :: l).
Proof.
  induction l as [|y l IH]; simpl.
  - apply Permutation_refl.
  - destruct (before x y).
    + apply Permutation_refl.
    + eapply perm_trans; [apply perm_skip, IH | apply perm_swap].
Qed.

Lemma order_by_perm (l : list A) : Permutation (order_by before l) l.
Proof.
  induction l as [|x l IH]; simpl.
  - constructor.
  - eapply perm_trans; [apply place_perm | apply perm_skip, IH].
Qed.

Lemma order_by_In (l : list A) (x : A) : In x (order_by before l) <-> In x l.
Proof.
  split; apply Permutation_in;
    [apply order_by_perm | apply Permutation_sym, order_by_perm].
Qed.

Lemma order_by_length (l : list A) : List.length (order_by before l) = List.length l.
Proof. apply Permutation_length, order_by_perm. Qed.

Hypothesis before_total : forall x y, before x y = true \/ before y x = true.

Lemma place_sorted (x : A) (l : list A) :
  Sorted (fun a b => before a b = true) l ->
  Sorted (fun a b => before a b = true) (place before x l).
Proof.
  induction 1 as [|y l Hs IH Hhd]; simpl.
  - repeat constructor.
  - destruct (before x y) eqn:Hxy.
    + constructor; [constructor; assumption | constructor; assumption].
    + constructor; [assumption|].
      destruct l as [|z l]; simpl in *.
      * constructor. destruct (before_total x y); congruence.
      * destruct (before x z).
        -- constructor. destruct (before_total x y); congruence.
        -- inversion Hhd; subst. constructor; assumption.
Qed.

Lemma order_by_sorted (l : list A) :
  Sorted (fun a b => before a b = true) (order_by before l).
Proof.
  induction l as [|x l IH]; simpl.
  - constructor.
  - apply place_sorted, IH.
Qed.
End OrderByFacts.

(** ** The database *)

Lemma Ok_inj {E A : Type} (a b : A) : @Ok E A a = Ok b -> a = b.
Proof. intros H; inversion H; reflexivity. Qed.

Lemma filter_all {A : Type} (l : list A) : filter (fun _ => true) l = l.
Proof. induction l; simpl; congruence. Qed.

(** Both branches of [get_expenses] are one filter on the rows. *)
Lemma get_expenses_in_range (db : database) (s e : option string) :
  FinanceDatabase.get_expenses db s e =
  (t <- table_of "expenses" (expenses db) ;;
   Ok (order_by FinanceDatabase.date_desc
         (filter (fun r => in_range s e (Expense.date r)) (rows t)))).
Proof.
  unfold FinanceDatabase.get_expenses.
  destruct (expenses db) as [t|]; simpl; [|reflexivity].
  destruct s as [[|a s]|], e as [[|b e]|]; simpl;
    rewrite ?filter_all; reflexivity.
Qed.

Lemma get_category_totals_in_range (db : database) (s e : option string) :
  FinanceDatabase.get_category_totals db s e =
  (t <- table_of "expenses" (expenses db) ;;
   Ok (order_by FinanceDatabase.total_desc
         (FinanceDatabase.group_by_category
            (filter (fun r => in_range s e (Expense.date r)) (rows t))))).
Proof.
  unfold FinanceDatabase.get_category_totals.
  destruct (expenses db) as [t|]; simpl; [|reflexivity].
  destruct s as [[|a s]|], e as [[|b e]|]; simpl;
    rewrite ?filter_all; reflexivity.
Qed.

Lemma in_range_falsy (s e : option string) (d : string) :
  truthy s && truthy e = false -> in_range s e d = true.
Proof.
  destruct s as [[|a s]|], e as [[|b e]|]; simpl; intros H;
    reflexivity || discriminate H.
Qed.

Lemma in_range_between (s e d : string) :
  s <> "" -> e <> "" -> in_range (Some s) (Some e) d = between s e d.
Proof.
  destruct s, e; simpl; intros Hs He; try reflexivity; congruence.
Qed.

Lemma in_range_covering (s e d : string) :
  String.leb s d = true -> String.leb d e = true ->
  in_range (Some s) (Some e) d = true.
Proof.
  intros Hs He. destruct s, e; simpl; try reflexivity.
  unfold between. rewrite Hs, He. reflexivity.
Qed.

(** An insertion that succeeds appends one row and keeps the others. *)
Lemma insert_rows {R : Type} (id : R -> Z) (mk : Z -> R) (t t' : table R) :
  insert id mk t = Ok t' ->
  rows t' = rows t ++ [mk (largest_rowid id t + 1)] /\
  largest_rowid id t < MAX_ROWID.
Proof.
  unfold insert. destruct (largest_rowid id t <? MAX_ROWID)%Z eqn:H;
    intros E; inversion E; subst; simpl.
  split; [reflexivity | apply Z.ltb_lt, H].
Qed.

Lemma largest_rowid_bound {R : Type} (id : R -> Z) (t : table R) (r : R) :
  In r (rows t) -> id r <= largest_rowid id t.
Proof.
  unfold largest_rowid. intros H.
  assert (id r <= fold_right Z.max 0 (map id (rows t))); [|lia].
  induction (rows t) as [|x l IH]; simpl in *; [contradiction|].
  destruct H as [->|H]; [lia | specialize (IH H); lia].
Qed.

Lemma add_expense_rows (db db' : database) date amount description category
    payment_method now :
  FinanceDatabase.add_expense db date amount description category
    payment_method now = Ok db' ->
  exists t id,
    expenses db = Some t /\
    (forall r, In r (rows t) -> Expense.id r < id) /\
    expense_rows db' =
      rows t ++ [Expense.Row id date amount description category
                   payment_method now] /\
    expenses db' <> None /\
    budgets db' = budgets db /\ income db' = income db.
Proof.
  unfold FinanceDatabase.add_expense.
  destruct (expenses db) as [t|]; simpl; [|discriminate].
  destruct (insert _ _ t) as [t'|] eqn:Hi; simpl; [|discriminate].
  intros E; inversion E; subst; clear E.
  apply insert_rows in Hi. destruct Hi as [Hrows _].
  exists t, (largest_rowid Expense.id t + 1). unfold expense_rows; simpl.
  repeat split; try assumption; try discriminate.
  intros r Hr. apply (largest_rowid_bound Expense.id) in Hr. lia.
Qed.

(** [add_expense] succeeds when the table exists and rowids are left. *)
Lemma add_expense_succeeds (db : database) (t : table Expense.t)
    date amount description category payment_method now :
  expenses db = Some t ->
  largest_rowid Expense.id t < MAX_ROWID ->
  exists db',
    FinanceDatabase.add_expense db date amount description category
      payment_method now = Ok db'.
Proof.
  intros Ht Hlt. unfold FinanceDatabase.add_expense, insert.
  rewrite Ht. cbn [table_of bind].
  apply Z.ltb_lt in Hlt. rewrite Hlt. cbn [bind]. eexists. reflexivity.
Qed.

Example add_expense_database_full :
  FinanceDatabase.add_expense (ledger [] MAX_ROWID) "2024-03-10" (18 # 1)
    "pizza delivery" "Food & Dining" "Cash" "2024-03-10 20:15:00"
  = Raise database_full.
Proof. reflexivity. Qed.

Example add_expense_no_table :
  FinanceDatabase.add_expense no_tables "2024-03-10" (18 # 1)
    "pizza delivery" "Food & Dining" "Cash" "2024-03-10 20:15:00"
  = Raise (no_such_table "expenses").
Proof. reflexivity. Qed.

Example get_expenses_latest_first :
  FinanceDatabase.get_expenses three_expenses None None
  = Ok [hotel; coffee; pizza].
Proof. reflexivity. Qed.

Lemma date_desc_total (x y : Expense.t) :
  FinanceDatabase.date_desc x y = true \/ FinanceDatabase.date_desc y x = true.
Proof. unfold FinanceDatabase.date_desc. apply String.leb_total. Qed.

(** [ORDER BY date DESC]: no record is followed by one with a later date. *)
Lemma get_expenses_sorted (db : database) (s e : option string)
    (l : list Expense.t) :
  FinanceDatabase.get_expenses db s e = Ok l ->
  Sorted (fun x y => String.leb (Expense.date y) (Expense.date x) = true) l.
Proof.
  rewrite get_expenses_in_range.
  destruct (expenses db) as [t|]; cbn [table_of bind]; [|discriminate].
  intros E. apply Ok_inj in E. subst l.
  apply (order_by_sorted FinanceDatabase.date_desc date_desc_total).
Qed.

(** C3.  After [add_expense] of a date, amount, description and category,
    [get_expenses] on a range of dates that covers the date returns a
    record with exactly these four fields, and one record more than the
    same query returned before the call.  No condition on the amount is
    needed: the table accepts any. *)
Theorem add_expense_then_get_expenses
    (db db' : database) (date : string) (amount : Q)
    (description category payment_method now : string)
    (start_date end_date : string) :
  FinanceDatabase.add_expense db date amount description category
    payment_method now = Ok db' ->
  String.leb start_date date = true ->
  String.leb date end_date = true ->
  exists before after r,
    FinanceDatabase.get_expenses db (Some start_date) (Some end_date) = Ok before /\
    FinanceDatabase.get_expenses db' (Some start_date) (Some end_date) = Ok after /\
    In r after /\
    Expense.date r = date /\ Expense.amount r = amount /\
    Expense.description r = description /\ Expense.category r = category /\
    List.length after = S (List.length before).
Proof.
  intros Hadd Hs He.
  destruct (add_expense_rows _ _ _ _ _ _ _ _ Hadd)
    as (t & id & Ht & _ & Hrows & Hsome & _).
  set (r := Expense.Row id date amount description category payment_method now)
    in Hrows.
  rewrite !get_expenses_in_range.
  unfold expense_rows in Hrows.
  destruct (expenses db') as [t'|]; [|congruence].
  cbn [content] in Hrows. rewrite Ht. cbn [table_of bind].
  rewrite Hrows, filter_app. cbn [filter].
  rewrite (in_range_covering start_date end_date (Expense.date r) Hs He).
  eexists _, _, r. repeat split.
  - apply order_by_In, in_or_app. right. left. reflexivity.
  - rewrite !order_by_length, length_app. simpl. lia.
Qed.

Lemma add_expense_then_get_expenses_witness :
  FinanceDatabase.add_expense fresh_ledger "2024-03-10" (18 # 1)
    "pizza delivery" "Food & Dining" "Cash" "2024-03-10 20:15:00"
  = Ok (ledger [Expense.Row 1 "2024-03-10" (18 # 1) "pizza delivery"
                  "Food & Dining" "Cash" "2024-03-10 20:15:00"] 1) /\
  exists before after r,
    FinanceDatabase.get_expenses fresh_ledger
      (Some "2024-03-01") (Some "2024-03-31") = Ok before /\
    FinanceDatabase.get_expenses
      (ledger [Expense.Row 1 "2024-03-10" (18 # 1) "pizza delivery"
                 "Food & Dining" "Cash" "2024-03-10 20:15:00"] 1)
      (Some "2024-03-01") (Some "2024-03-31") = Ok after /\
    In r after /\
    Expense.date r = "2024-03-10" /\ Expense.amount r = (18 # 1)%Q /\
    Expense.description r = "pizza delivery" /\
    Expense.category r = "Food & Dining" /\
    List.length after = S (List.length before).
Proof.
  split; [reflexivity|].
  apply (add_expense_then_get_expenses fresh_ledger _ "2024-03-10" (18 # 1)
           "pizza delivery" "Food & Dining" "Cash" "2024-03-10 20:15:00"
           "2024-03-01" "2024-03-31");
    reflexivity.
Defined.

(** C4, as stated, fails: with an empty lower bound the query is not
    filtered, and a record dated after the upper bound is returned. *)
Lemma get_expenses_empty_bound_outside :
  ~ (forall (db : database) (start_date end_date : string)
            (l : list Expense.t) (r : Expense.t),
        FinanceDatabase.get_expenses db (Some start_date) (Some end_date) = Ok l ->
        In r l ->
        String.leb start_date (Expense.date r) = true /\
        String.leb (Expense.date r) end_date = true).
Proof.
  intros H.
  destruct (H one_expense "" "2024-12-31" [hotel] hotel eq_refl
              (or_introl eq_refl)) as [_ Hend].
  vm_compute in Hend. discriminate Hend.
Qed.

(** C4, amended.  For non-empty bounds, [get_expenses] returns exactly the
    stored records whose date is in the closed interval: none before
    [start_date], none after [end_date], and a record dated at either bound
    is returned. *)
Theorem get_expenses_within_bounds
    (db : database) (start_date end_date : string) (l : list Expense.t) :
  start_date <> "" -> end_date <> "" ->
  FinanceDatabase.get_expenses db (Some start_date) (Some end_date) = Ok l ->
  forall r,
    In r l <->
    In r (expense_rows db) /\
    String.leb start_date (Expense.date r) = true /\
    String.leb (Expense.date r) end_date = true.
Proof.
  intros Hs He Hget r.
  rewrite get_expenses_in_range in Hget. unfold expense_rows.
  destruct (expenses db) as [t|]; cbn [table_of bind content] in *;
    [|discriminate].
  apply Ok_inj in Hget. subst l.
  rewrite order_by_In, filter_In, in_range_between by assumption.
  unfold between. rewrite andb_true_iff. reflexivity.
Qed.

Lemma get_expenses_within_bounds_witness :
  "2024-03-10" <> "" /\ "2024-03-12" <> "" /\
  FinanceDatabase.get_expenses three_expenses
    (Some "2024-03-10") (Some "2024-03-12") = Ok [coffee; pizza] /\
  forall r,
    In r [coffee; pizza] <->
    In r (expense_rows three_expenses) /\
    String.leb "2024-03-10" (Expense.date r) = true /\
    String.leb (Expense.date r) "2024-03-12" = true.
Proof.
  split; [discriminate|]. split; [discriminate|]. split; [reflexivity|].
  apply (get_expenses_within_bounds three_expenses "2024-03-10" "2024-03-12");
    [discriminate | discriminate | reflexivity].
Defined.

(** C10.  When exactly one bound is given, or a given bound is the empty
    string, [get_expenses] does not filter: on a database that has the
    table it returns what it returns without bounds, every stored
    expense. *)
Theorem get_expenses_missing_bound
    (db : database) (start_date end_date : option string) :
  (start_date = None /\ end_date <> None) \/
  (start_date <> None /\ end_date = None) \/
  start_date = Some "" \/ end_date = Some "" ->
  expenses db <> None ->
  exists l,
    FinanceDatabase.get_expenses db start_date end_date = Ok l /\
    FinanceDatabase.get_expenses db None None = Ok l /\
    Permutation l (expense_rows db).
Proof.
  intros H Ht.
  assert (Hf : truthy start_date && truthy end_date = false).
  { destruct H as [[-> _]|[[_ ->]|[->| ->]]]; simpl;
      try reflexivity; apply andb_false_r. }
  rewrite !get_expenses_in_range. unfold expense_rows.
  destruct (expenses db) as [t|]; [|congruence].
  cbn [table_of bind content].
  rewrite (filter_ext (fun r => in_range start_date end_date (Expense.date r))
             (fun _ => true))
    by (intros; apply in_range_falsy, Hf).
  rewrite !filter_all. eexists. split; [reflexivity|].
  split; [reflexivity | apply order_by_perm].
Qed.

Lemma get_expenses_missing_bound_witness :
  ((@None string = None /\ Some "2024-12-31" <> None) \/
   (@None string <> None /\ Some "2024-12-31" = None) \/
   @None string = Some "" \/ Some "2024-12-31" = Some "") /\
  expenses three_expenses <> None /\
  FinanceDatabase.get_expenses three_expenses None (Some "2024-12-31")
  = Ok [hotel; coffee; pizza] /\
  FinanceDatabase.get_expenses three_expenses None None
  = Ok [hotel; coffee; pizza] /\
  Permutation [hotel; coffee; pizza] (expense_rows three_expenses).
Proof.
  assert (H : (@None string = None /\ Some "2024-12-31" <> None) \/
              (@None string <> None /\ Some "2024-12-31" = None) \/
              @None string = Some "" \/ Some "2024-12-31" = Some "")
    by (left; split; [reflexivity | discriminate]).
  assert (Ht : expenses three_expenses <> None) by discriminate.
  split; [exact H|]. split; [exact Ht|].
  destruct (get_expenses_missing_bound three_expenses None
              (Some "2024-12-31") H Ht) as (l & Hl & Hall & Hperm).
  assert (E : l = [hotel; coffee; pizza])
    by (apply (@Ok_inj sqlite_error); rewrite <- Hl; reflexivity).
  rewrite E in Hl, Hall, Hperm.
  split; [exact Hl|]. split; [exact Hall | exact Hperm].
Defined.

(** ** Initialization *)

Lemma init_database_again (db : database) :
  FinanceDatabase.init_database (FinanceDatabase.init_database db) =
  FinanceDatabase.init_database db.
Proof.
  unfold FinanceDatabase.init_database.
  destruct db as [[?|] [?|] [?|]]; reflexivity.
Qed.

Lemma startups_succ (n : nat) (db : database) :
  startups (S n) db = FinanceDatabase.init_database db.
Proof.
  induction n as [|n IH].
  - reflexivity.
  - change (startups (S (S n)) db)
      with (FinanceDatabase.init_database (startups (S n) db)).
    rewrite IH. apply init_database_again.
Qed.

(** C8.  Calling [init_database] once or more, on any database, gives what
    one call gives: the three tables exist, each once, and each holds the
    rows and the rowid counter it held before (none if it did not exist). *)
Theorem init_database_idempotent (db : database) (n : nat) :
  startups (S n) db = FinanceDatabase.init_database db /\
  table_names (startups (S n) db) = ["expenses"; "budgets"; "income"] /\
  NoDup (table_names (startups (S n) db)) /\
  expenses (startups (S n) db) = Some (content (expenses db)) /\
  budgets (startups (S n) db) = Some (content (budgets db)) /\
  income (startups (S n) db) = Some (content (income db)).
Proof.
  rewrite startups_succ.
  assert (Hn : table_names (FinanceDatabase.init_database db)
               = ["expenses"; "budgets"; "income"])
    by (destruct db as [[?|] [?|] [?|]]; reflexivity).
  split; [reflexivity|]. split; [exact Hn|]. split.
  - rewrite Hn. repeat constructor; simpl; intuition discriminate.
  - destruct db as [[?|] [?|] [?|]]; repeat split.
Qed.

(** ** Totals by category *)

Lemma Sorted_weaken {A : Type} (R S : A -> A -> Prop) (l : list A) :
  (forall a b, R a b -> S a b) -> Sorted R l -> Sorted S l.
Proof.
  intros HRS. induction 1 as [|x l Hs IH Hhd]; constructor.
  - exact IH.
  - destruct Hhd; constructor. apply HRS. assumption.
Qed.

Section GroupBy.
Import FinanceDatabase.

Lemma total_of_add_to_group (c k : string) (a : Q) (g : list (string * Q)) :
  total_of c (add_to_group k a g) =
  if String.eqb k c
  then Some (match total_of k g with
             | Some t => double_add t a
             | None => double_add 0 a
             end)
  else total_of c g.
Proof.
  induction g as [|[c0 t0] g IH]; simpl.
  - reflexivity.
  - destruct (String.eqb_spec c0 k) as [->|Hk]; simpl.
    + destruct (String.eqb k c); reflexivity.
    + destruct (String.eqb_spec c0 c) as [->|Hc].
      * destruct (String.eqb_spec k c); [congruence | reflexivity].
      * apply IH.
Qed.

Lemma keys_add_to_group (k : string) (a : Q) (g : list (string * Q)) :
  map fst (add_to_group k a g) =
  match total_of k g with
  | Some _ => map fst g
  | None => map fst g ++ [k]
  end.
Proof.
  induction g as [|[c0 t0] g IH]; simpl.
  - reflexivity.
  - destruct (String.eqb c0 k); simpl; [reflexivity|].
    rewrite IH. destruct (total_of k g); reflexivity.
Qed.

Lemma total_of_keys (c : string) (g : list (string * Q)) :
  In c (map fst g) <-> total_of c g <> None.
Proof.
  induction g as [|[c0 t0] g IH]; simpl.
  - split; [contradiction | congruence].
  - destruct (String.eqb_spec c0 c) as [->|Hc].
    + split; [discriminate | auto].
    + rewrite <- IH. split; [intros [?|?]; [contradiction|assumption] | auto].
Qed.

Lemma total_of_In (c : string) (t : Q) (g : list (string * Q)) :
  NoDup (map fst g) -> In (c, t) g -> total_of c g = Some t.
Proof.
  induction g as [|[c0 t0] g IH]; simpl; [contradiction|].
  intros Hnd [E|Hin].
  - inversion E; subst. rewrite String.eqb_refl. reflexivity.
  - inversion Hnd as [|? ? Hnot Hnd']; subst.
    destruct (String.eqb_spec c0 c) as [->|Hc].
    + exfalso. apply Hnot. apply (in_map fst) in Hin. exact Hin.
    + apply IH; assumption.
Qed.

Lemma group_by_category_snoc (l : list Expense.t) (r : Expense.t) :
  group_by_category (l ++ [r]) =
  add_to_group (Expense.category r) (Expense.amount r) (group_by_category l).
Proof. unfold group_by_category. rewrite fold_left_app. reflexivity. Qed.

Lemma double_sum_snoc (l : list Expense.t) (r : Expense.t) :
  double_sum (l ++ [r]) = double_add (double_sum l) (Expense.amount r).
Proof. unfold double_sum. rewrite map_app, fold_left_app. reflexivity. Qed.

Lemma group_by_category_NoDup (l : list Expense.t) :
  NoDup (map fst (group_by_category l)).
Proof.
  induction l as [|r l IH] using rev_ind.
  - constructor.
  - rewrite group_by_category_snoc, keys_add_to_group.
    destruct (total_of _ _) eqn:Ht; [assumption|].
    apply NoDup_app; [assumption | repeat constructor; simpl; tauto |].
    intros c Hc [<-|[]]. apply total_of_keys in Hc. congruence.
Qed.

(** The running totals after a pass over [l]: a category has a total
    exactly when a row of [l] has it, the sum of the amounts of these
    rows. *)
Lemma total_of_group_by_category (c : string) (l : list Expense.t) :
  total_of c (group_by_category l) =
  match of_category c l with
  | [] => None
  | _ :: _ => Some (double_sum (of_category c l))
  end.
Proof.
  induction l as [|r l IH] using rev_ind.
  - reflexivity.
  - rewrite group_by_category_snoc, total_of_add_to_group.
    unfold of_category in *. rewrite filter_app. simpl.
    destruct (String.eqb_spec (Expense.category r) c) as [->|Hc].
    + rewrite IH. destruct (filter _ l) as [|x l'] eqn:Hf.
      * reflexivity.
      * rewrite (double_sum_snoc (x :: l') r). reflexivity.
    + rewrite app_nil_r. exact IH.
Qed.

Lemma total_desc_total (x y : string * Q) :
  total_desc x y = true \/ total_desc y x = true.
Proof.
  unfold total_desc. rewrite !Qle_bool_iff.
  destruct (Qlt_le_dec (snd x) (snd y)) as [H|H]; [right | left].
  - apply Qlt_le_weak, H.
  - exact H.
Qed.

(** What [GROUP BY category ORDER BY total DESC] gives on the rows [l]. *)
Lemma totals_by_category (l : list Expense.t) :
  let totals := order_by total_desc (group_by_category l) in
  NoDup (map fst totals) /\
  (forall c, In c (map fst totals) <->
             exists r, In r l /\ Expense.category r = c) /\
  (forall c total, In (c, total) totals ->
                   total = double_sum (of_category c l)) /\
  Sorted (fun x y => (snd y <= snd x)%Q) totals.
Proof.
  intros totals.
  assert (Hp : Permutation totals (group_by_category l))
    by apply order_by_perm.
  assert (Hnd : NoDup (map fst (group_by_category l)))
    by apply group_by_category_NoDup.
  repeat split.
  - eapply Permutation_NoDup; [|exact Hnd].
    apply Permutation_map, Permutation_sym, Hp.
  - intros Hc. apply (Permutation_in _ (Permutation_map fst Hp)) in Hc.
    apply total_of_keys in Hc. rewrite total_of_group_by_category in Hc.
    destruct (of_category c l) as [|r l'] eqn:Hf; [congruence|].
    assert (Hr : In r (of_category c l)) by (rewrite Hf; left; reflexivity).
    apply filter_In in Hr. destruct Hr as [Hr Hcat].
    exists r. split; [exact Hr | apply String.eqb_eq, Hcat].
  - intros (r & Hr & Hcat).
    apply (Permutation_in _ (Permutation_map fst (Permutation_sym Hp))).
    apply total_of_keys. rewrite total_of_group_by_category.
    assert (Hin : In r (of_category c l))
      by (apply filter_In; split; [exact Hr | apply String.eqb_eq, Hcat]).
    destruct (of_category c l); [contradiction | discriminate].
  - intros c total Hin. apply (Permutation_in _ Hp) in Hin.
    apply (total_of_In _ _ _ Hnd) in Hin.
    rewrite total_of_group_by_category in Hin.
    destruct (of_category c l); congruence.
  - apply (Sorted_weaken (fun a b => total_desc a b = true)).
    + intros a b Hab. apply Qle_bool_iff, Hab.
    + apply order_by_sorted, total_desc_total.
Qed.
End GroupBy.






(** ** Budgets and income *)

Lemma set_budget_keeps_database (float : string -> option Q)
    (self : FinanceTrackerGUI.t) :
  FinanceTrackerGUI.db (fst (FinanceTrackerGUI.set_budget float self)) =
  FinanceTrackerGUI.db self.
Proof.
  unfold FinanceTrackerGUI.set_budget.
  destruct (_ || _); [reflexivity|].
  destruct (float _); reflexivity.
Qed.

(** When the form is filled and the amount is a number, [set_budget]
    reports that the budget is set and clears the form. *)
Lemma set_budget_reports_success (float : string -> option Q)
    (db : database) (category amount : string) (a : Q) :
  category <> "" -> amount <> "" -> float amount = Some a ->
  FinanceTrackerGUI.set_budget float
    (FinanceTrackerGUI.Window db category amount) =
  (FinanceTrackerGUI.Window db "" "",
   FinanceTrackerGUI.showinfo_budget_set category a).
Proof.
  intros Hc Ha Hf. unfold FinanceTrackerGUI.set_budget. simpl.
  destruct category; [congruence|]. destruct amount; [congruence|].
  simpl. rewrite Hf. reflexivity.
Qed.

(** C1.  The code does not do what the claim says: [set_budget] checks the
    form and reports success, but writes nothing.  Whatever [float] makes
    of the amounts, after the budget of ["Food & Dining"] was set twice the
    database is the fresh one and holds no budget row for the category,
    where the claim wants exactly one. *)
Theorem set_budget_twice_stores_nothing (float : string -> option Q) :
  FinanceTrackerGUI.db (budget_set_twice float) = fresh_ledger /\
  budgets_of "Food & Dining" (FinanceTrackerGUI.db (budget_set_twice float)) = [].
Proof.
  assert (H : FinanceTrackerGUI.db (budget_set_twice float) = fresh_ledger).
  { unfold budget_set_twice, FinanceTrackerGUI.press_set_budget.
    rewrite !set_budget_keeps_database. reflexivity. }
  rewrite H. split; reflexivity.
Qed.

Lemma run_keeps_income (c : call) (db db' : database) :
  run c db = Ok db' -> income_rows db' = income_rows db.
Proof.
  destruct c as [|date amount description category payment_method now|s e|s e];
    simpl.
  - intros E. apply Ok_inj in E. subst db'.
    unfold income_rows. destruct db as [? ? [?|]]; reflexivity.
  - intros E. apply add_expense_rows in E.
    destruct E as (t & id & _ & _ & _ & _ & _ & Hi).
    unfold income_rows. rewrite Hi. reflexivity.
  - destruct (FinanceDatabase.get_expenses db s e); simpl; [|discriminate].
    intros E. apply Ok_inj in E. subst db'. reflexivity.
  - destruct (FinanceDatabase.get_category_totals db s e); simpl; [|discriminate].
    intros E. apply Ok_inj in E. subst db'. reflexivity.
Qed.

(** C2, as stated, fails: the code has no operation that adds income.  On a
    fresh database no call of a method of [FinanceDatabase] leaves an
    income record, whatever its date, amount and source. *)
Lemma no_call_adds_income :
  ~ exists (c : call) (db' : database) (r : Income.t),
      run c fresh_ledger = Ok db' /\
      income_rows db' = income_rows fresh_ledger ++ [r].
Proof.
  intros (c & db' & r & Hrun & Hrows).
  apply run_keeps_income in Hrun. rewrite Hrun in Hrows.
  apply (f_equal (@List.length Income.t)) in Hrows.
  rewrite length_app in Hrows. simpl in Hrows. lia.
Qed.

(** C2, amended.  [init_database] creates the income table, and no method
    of [FinanceDatabase] writes to it: any sequence of calls leaves the
    income records as they were. *)
Theorem calls_keep_income (cs : list call) (db db' : database) :
  run_all cs db = Ok db' -> income_rows db' = income_rows db.
Proof.
  revert db. induction cs as [|c cs IH]; simpl; intros db E.
  - apply Ok_inj in E. subst db'. reflexivity.
  - destruct (run c db) as [db1|] eqn:Hc; simpl in E; [|discriminate].
    rewrite (IH _ E). apply run_keeps_income with c. exact Hc.
Qed.

Lemma calls_keep_income_witness :
  run_all [call_init_database;
           call_add_expense "2024-03-10" (18 # 1) "pizza delivery"
             "Food & Dining" "Cash" "2024-03-10 20:15:00";
           call_get_expenses None None]
    no_tables
  = Ok (ledger [Expense.Row 1 "2024-03-10" (18 # 1) "pizza delivery"
                  "Food & Dining" "Cash" "2024-03-10 20:15:00"] 1) /\
  income_rows
    (ledger [Expense.Row 1 "2024-03-10" (18 # 1) "pizza delivery"
               "Food & Dining" "Cash" "2024-03-10 20:15:00"] 1)
  = income_rows no_tables.
Proof.
  split; [reflexivity|].
  apply (calls_keep_income
           [call_init_database;
            call_add_expense "2024-03-10" (18 # 1) "pizza delivery"
              "Food & Dining" "Cash" "2024-03-10 20:15:00";
            call_get_expenses None None]
           no_tables).
  reflexivity.
Defined.

(** ** The categorizer *)

Section CategorizerFacts.
Import ExpenseCategorizer.

Variable lower : string -> string.

Lemma max_of_largest (l : list Q) (c : Q) :
  max_of l = Ok c -> In c l /\ forall x, In x l -> (x <= c)%Q.
Proof.
  destruct l as [|p l]; simpl; [discriminate|].
  intros E. apply Ok_inj in E. subst c.
  revert p. induction l as [|y l IH]; simpl; intros p.
  - split; [left; reflexivity|].
    intros x [->|[]]. apply Qle_refl.
  - destruct (Qle_bool y p) eqn:Hyp.
    + destruct (IH p) as [Hin Hmax]. split.
      * destruct Hin as [<-|Hin]; [left; reflexivity | right; right; exact Hin].
      * intros x [->|[->|Hx]].
        -- apply Hmax. left. reflexivity.
        -- apply Qle_trans with p; [apply Qle_bool_iff, Hyp|].
           apply Hmax. left. reflexivity.
        -- apply Hmax. right. exact Hx.
    + destruct (IH y) as [Hin Hmax]. split.
      * right. destruct Hin as [<-|Hin]; [left; reflexivity | right; exact Hin].
      * intros x [->|[->|Hx]].
        -- apply Qle_trans with y; [|apply Hmax; left; reflexivity].
           destruct (Qlt_le_dec x y) as [H|H]; [apply Qlt_le_weak, H|].
           apply Qle_bool_iff in H. congruence.
        -- apply Hmax. left. reflexivity.
        -- apply Hmax. right. exact Hx.
Qed.

(** The threshold of [categorize]: with a model that predicts [p] for the
    lowercased description, with largest class probability [confidence],
    the answer is [p] above 0.3 and ["Miscellaneous"] otherwise. *)
Lemma categorize_threshold (self : t) (m : Pipeline)
    (description p : string) (probabilities : list Q) (confidence : Q) :
  model self = Some m ->
  predict m (lower description) = Ok p ->
  predict_proba m (lower description) = Ok probabilities ->
  max_of probabilities = Ok confidence ->
  ((threshold < confidence)%Q -> categorize lower self description = Ok p) /\
  ((confidence <= threshold)%Q ->
   categorize lower self description = Ok "Miscellaneous").
Proof.
  intros Hm Hp Hpr Hmax. unfold categorize, categorize_try.
  rewrite Hm, Hp. cbn [bind]. rewrite Hpr. cbn [bind]. rewrite Hmax. cbn [bind].
  split; intros H.
  - destruct (Qle_bool confidence threshold) eqn:Hle; [|reflexivity].
    apply Qle_bool_iff in Hle. exfalso. apply (Qlt_not_le _ _ H Hle).
  - apply Qle_bool_iff in H. rewrite H. reflexivity.
Qed.

(** An answer of [categorize] is the fallback or a prediction of the
    model. *)
Lemma categorize_answer (self : t) (description c : string) :
  categorize lower self description = Ok c ->
  c = "Miscellaneous" \/
  exists m, model self = Some m /\ predict m (lower description) = Ok c.
Proof.
  unfold categorize, categorize_try.
  destruct (model self) as [m|]; cbn [bind].
  - destruct (predict m (lower description)) as [p|e] eqn:Hp; cbn [bind].
    + destruct (predict_proba m (lower description)) as [l|e]; cbn [bind].
      * destruct (max_of l) as [q|e]; cbn [bind].
        -- destruct (Qle_bool q threshold); intros E; apply Ok_inj in E.
           ++ left. congruence.
           ++ right. exists m. split; congruence.
        -- intros E. apply Ok_inj in E. left. congruence.
      * intros E. apply Ok_inj in E. left. congruence.
    + intros E. apply Ok_inj in E. left. congruence.
  - intros E. apply Ok_inj in E. left. congruence.
Qed.

Lemma categorize_returns (self : t) (description : string) :
  exists c, categorize lower self description = Ok c.
Proof.
  unfold categorize.
  destruct (categorize_try lower self description) as [[c|]|e];
    eexists; reflexivity.
Qed.

(** C7.  [categorize] returns, whatever the state and the description;
    and when the model is missing, when [predict] or [predict_proba]
    raises, or when [max] raises on an empty sequence, it returns
    ["Miscellaneous"]. *)
Theorem categorize_never_raises (self : t) (description : string) :
  (exists c, categorize lower self description = Ok c) /\
  ((exists e, categorize_try lower self description = Raise e) ->
   categorize lower self description = Ok "Miscellaneous") /\
  (model self = None ->
   categorize lower self description = Ok "Miscellaneous") /\
  (forall m e, model self = Some m ->
     predict m (lower description) = Raise e \/
     predict_proba m (lower description) = Raise e \/
     predict_proba m (lower description) = Ok [] ->
     categorize lower self description = Ok "Miscellaneous").
Proof.
  split; [apply categorize_returns|].
  unfold categorize. repeat split.
  - intros [e ->]. reflexivity.
  - unfold categorize_try. intros ->. reflexivity.
  - unfold categorize_try. intros m e -> H.
    destruct (predict m (lower description)) as [p|e1]; cbn [bind];
      [|reflexivity].
    destruct H as [H|[H|H]]; [discriminate H | |]; rewrite H; reflexivity.
Qed.
End CategorizerFacts.

Lemma training_labels_in_categories (c : string) :
  In c (map snd ExpenseCategorizer.training_data) ->
  In c ExpenseCategorizer.categories.
Proof.
  unfold ExpenseCategorizer.training_data, ExpenseCategorizer.categories.
  cbn [map snd In]. intros H.
  repeat (destruct H as [<-|H]; [tauto|]). contradiction.
Qed.

Lemma init_model (lower : string -> string)
    (fit : list string -> list string -> Pipeline)
    (can_write : bool) (file : ExpenseCategorizer.pickle_file) :
  saved_by_categorizer fit file ->
  ExpenseCategorizer.model (ExpenseCategorizer.init fit can_write file) =
  Some (fit (map fst ExpenseCategorizer.training_data)
          (map snd ExpenseCategorizer.training_data)).
Proof.
  unfold ExpenseCategorizer.init, ExpenseCategorizer.load_or_create_model,
    ExpenseCategorizer.create_initial_model, ExpenseCategorizer.save_model.
  intros [->|[[e ->]| ->]]; cbn [ExpenseCategorizer.pkl];
    destruct can_write; reflexivity.
Qed.

Example categorize_uber_ride :
  ExpenseCategorizer.categorize lower_text
    (ExpenseCategorizer.init lookup_fit true None) "Uber Ride"
  = Ok "Transportation".
Proof. reflexivity. Qed.

Example categorize_unknown :
  ExpenseCategorizer.categorize lower_text
    (ExpenseCategorizer.init lookup_fit true None) "lottery"
  = Ok "Miscellaneous".
Proof. reflexivity. Qed.

(** C9.  With a model fitted on the bundled examples (the file of the
    model absent, unreadable or written by the categorizer itself, and a
    classifier that predicts labels it was fitted on), [categorize] answers
    for every description, with the label of a bundled example or with
    ["Miscellaneous"]: one of the eleven categories. *)
Theorem categorize_in_categories (lower : string -> string)
    (fit : list string -> list string -> Pipeline)
    (can_write : bool) (file : ExpenseCategorizer.pickle_file)
    (description : string) :
  predicts_fitted_labels fit ->
  saved_by_categorizer fit file ->
  exists c,
    ExpenseCategorizer.categorize lower
      (ExpenseCategorizer.init fit can_write file) description = Ok c /\
    (In c (map snd ExpenseCategorizer.training_data) \/ c = "Miscellaneous") /\
    In c ExpenseCategorizer.categories.
Proof.
  intros Hfit Hfile.
  destruct (categorize_returns lower
              (ExpenseCategorizer.init fit can_write file) description)
    as [c Hc].
  exists c. split; [exact Hc|].
  apply categorize_answer in Hc. destruct Hc as [->|(m & Hm & Hp)].
  - split; [right; reflexivity|]. simpl. tauto.
  - rewrite (init_model lower fit can_write file Hfile) in Hm.
    injection Hm as <-. apply Hfit in Hp.
    split; [left; exact Hp | apply training_labels_in_categories, Hp].
Qed.

Lemma categorize_in_categories_witness :
  predicts_fitted_labels lookup_fit /\
  saved_by_categorizer lookup_fit None /\
  exists c,
    ExpenseCategorizer.categorize lower_text
      (ExpenseCategorizer.init lookup_fit true None) "Uber Ride" = Ok c /\
    (In c (map snd ExpenseCategorizer.training_data) \/ c = "Miscellaneous") /\
    In c ExpenseCategorizer.categories.
Proof.
  assert (Hfit : predicts_fitted_labels lookup_fit).
  { intros X y d p. unfold lookup_fit. cbn [predict].
    destruct (label_of X y d) as [l|] eqn:Hl; [|discriminate].
    intros E. apply Ok_inj in E. subst l.
    revert y Hl. induction X as [|x X IH]; intros [|l y]; simpl;
      try discriminate.
    destruct (String.eqb x d).
    - intros E. injection E as ->. left. reflexivity.
    - intros E. right. apply IH, E. }
  assert (Hfile : saved_by_categorizer lookup_fit None)
    by (left; reflexivity).
  split; [exact Hfit|]. split; [exact Hfile|].
  apply (categorize_in_categories lower_text lookup_fit true None "Uber Ride"
           Hfit Hfile).
Defined.

(** * Further properties of the ledger *)

(** ** The order of dates *)

Lemma compare_not_Gt_trans (a b c : string) :
  String.compare a b <> Gt -> String.compare b c <> Gt ->
  String.compare a c <> Gt.
Proof.
  revert b c. induction a as [|x a IH]; intros [|y b] [|z c]; simpl;
    try congruence.
  unfold Ascii.compare.
  destruct (N.compare_spec (N_of_ascii x) (N_of_ascii y)) as [Hxy|Hxy|Hxy];
    destruct (N.compare_spec (N_of_ascii y) (N_of_ascii z)) as [Hyz|Hyz|Hyz];
    destruct (N.compare_spec (N_of_ascii x) (N_of_ascii z)) as [Hxz|Hxz|Hxz];
    try congruence; try lia.
  apply IH.
Qed.

Lemma leb_trans (a b c : string) :
  String.leb a b = true -> String.leb b c = true -> String.leb a c = true.
Proof.
  unfold String.leb. intros Hab Hbc.
  assert (H : String.compare a c <> Gt).
  { apply compare_not_Gt_trans with b.
    - destruct (String.compare a b); congruence.
    - destruct (String.compare b c); congruence. }
  destruct (String.compare a c); congruence.
Qed.

Lemma ltb_not_leb (a b : string) :
  String.ltb a b = true -> String.leb b a = false.
Proof.
  unfold String.ltb, String.leb. rewrite (String.compare_antisym b a).
  destruct (String.compare a b); simpl; congruence.
Qed.

(** ** Insertion *)

(** X1.  A successful [add_expense] appends one row that carries the
    arguments and the timestamp, under an identifier larger than every
    identifier in the table; the rows stored before stay as they are, in
    their order, and the two other tables are not touched. *)
Theorem add_expense_appends_fresh_row (db db' : database)
    (date : string) (amount : Q)
    (description category payment_method now : string) :
  FinanceDatabase.add_expense db date amount description category
    payment_method now = Ok db' ->
  exists id,
    expense_rows db' =
      expense_rows db ++
      [Expense.Row id date amount description category payment_method now] /\
    (forall r, In r (expense_rows db) -> Expense.id r < id) /\
    budgets db' = budgets db /\ income db' = income db.
Proof.
  intros H. apply add_expense_rows in H.
  destruct H as (t & id & Ht & Hlt & Hrows & _ & Hb & Hi).
  exists id. unfold expense_rows at 2 3. rewrite Ht. cbn [content].
  repeat split; assumption.
Qed.

Lemma add_expense_appends_fresh_row_witness :
  FinanceDatabase.add_expense one_expense "2024-03-10" (18 # 1)
    "pizza delivery" "Food & Dining" "Cash" "2024-03-10 20:15:00"
  = Ok two_expenses /\
  exists id,
    expense_rows two_expenses =
      expense_rows one_expense ++
      [Expense.Row id "2024-03-10" (18 # 1) "pizza delivery" "Food & Dining"
         "Cash" "2024-03-10 20:15:00"] /\
    (forall r, In r (expense_rows one_expense) -> Expense.id r < id) /\
    budgets two_expenses = budgets one_expense /\
    income two_expenses = income one_expense.
Proof.
  split; [reflexivity|].
  apply (add_expense_appends_fresh_row one_expense two_expenses).
  reflexivity.
Defined.

Lemma fold_max_bound (l : list Z) (n : Z) :
  0 <= n -> (forall x, In x l -> x <= n) -> fold_right Z.max 0 l <= n.
Proof.
  intros Hn. induction l as [|x l IH]; simpl; intros H; [exact Hn|].
  apply Z.max_lub; [apply H; left; reflexivity|].
  apply IH. intros y Hy. apply H. right. exact Hy.
Qed.

Lemma numbered_largest (t : table Expense.t) :
  map Expense.id (rows t) = map Z.of_nat (seq 1 (List.length (rows t))) ->
  sqlite_sequence t = Z.of_nat (List.length (rows t)) ->
  largest_rowid Expense.id t = Z.of_nat (List.length (rows t)).
Proof.
  intros Hids Hseq. unfold largest_rowid. rewrite Hseq, Hids.
  apply Z.max_l, fold_max_bound; [lia|].
  intros x Hx. apply in_map_iff in Hx. destruct Hx as (k & <- & Hk).
  apply in_seq in Hk. lia.
Qed.

Lemma run_keeps_numbered (c : call) (db db' : database) :
  run c db = Ok db' -> numbered db -> numbered db'.
Proof.
  destruct c as [|date amount description category payment_method now|s e|s e];
    simpl.
  - intros E. apply Ok_inj in E. subst db'. unfold numbered. simpl.
    destruct (expenses db) as [t|]; simpl; [tauto | split; reflexivity].
  - unfold FinanceDatabase.add_expense, numbered.
    destruct (expenses db) as [t|]; cbn [table_of bind]; [|discriminate].
    intros E [Hids Hseq]. unfold insert in E.
    rewrite (numbered_largest t Hids Hseq) in E.
    destruct (_ <? _)%Z; cbn [bind] in E; [|discriminate].
    apply Ok_inj in E. subst db'. cbn [expenses rows sqlite_sequence].
    rewrite length_app, map_app, Hids. cbn [List.length map Expense.id].
    rewrite Nat.add_1_r, seq_S, map_app. cbn [map Nat.add].
    split; [|lia]. do 3 f_equal. lia.
  - destruct (FinanceDatabase.get_expenses db s e); simpl; [|discriminate].
    intros E. apply Ok_inj in E. subst db'. tauto.
  - destruct (FinanceDatabase.get_category_totals db s e); simpl; [|discriminate].
    intros E. apply Ok_inj in E. subst db'. tauto.
Qed.

(** X2.  In a database that only these methods have written, starting
    from no file, the expenses are numbered 1, 2, 3, ...: the identifier of
    a record is its rank in the order of insertion, and no identifier is
    used twice. *)
Theorem expenses_numbered_from_one (cs : list call) (db : database) :
  run_all cs no_tables = Ok db ->
  map Expense.id (expense_rows db) =
    map Z.of_nat (seq 1 (List.length (expense_rows db))) /\
  NoDup (map Expense.id (expense_rows db)).
Proof.
  assert (Hinv : forall cs db0 db1,
             run_all cs db0 = Ok db1 -> numbered db0 -> numbered db1).
  { clear. induction cs as [|c cs IH]; simpl; intros db0 db1 E Hn.
    - apply Ok_inj in E. subst db1. exact Hn.
    - destruct (run c db0) as [db2|] eqn:Hc; simpl in E; [|discriminate].
      apply (IH _ _ E). apply (run_keeps_numbered c db0); assumption. }
  intros E. apply Hinv in E; [|exact I].
  assert (H : map Expense.id (expense_rows db) =
              map Z.of_nat (seq 1 (List.length (expense_rows db)))).
  { unfold numbered in E. unfold expense_rows.
    destruct (expenses db) as [t|]; cbn [content]; [tauto | reflexivity]. }
  split; [exact H|]. rewrite H.
  apply Finite.Injective_map_NoDup; [intros x y; apply Nat2Z.inj | apply seq_NoDup].
Qed.

Lemma expenses_numbered_from_one_witness :
  run_all [call_init_database;
           call_add_expense "2025-06-01" (120 # 1) "hotel" "Travel"
             "Credit Card" "2025-06-01 09:30:00";
           call_add_expense "2024-03-10" (18 # 1) "pizza delivery"
             "Food & Dining" "Cash" "2024-03-10 20:15:00"]
    no_tables = Ok two_expenses /\
  map Expense.id (expense_rows two_expenses) =
    map Z.of_nat (seq 1 (List.length (expense_rows two_expenses))) /\
  NoDup (map Expense.id (expense_rows two_expenses)).
Proof.
  split; [reflexivity|].
  apply (expenses_numbered_from_one
           [call_init_database;
            call_add_expense "2025-06-01" (120 # 1) "hotel" "Travel"
              "Credit Card" "2025-06-01 09:30:00";
            call_add_expense "2024-03-10" (18 # 1) "pizza delivery"
              "Food & Dining" "Cash" "2024-03-10 20:15:00"]).
  reflexivity.
Defined.

(** ** Queries *)

(** X3.  Whatever the bounds, [get_expenses] returns its records latest
    date first: no record is followed by one with a later date. *)
Theorem get_expenses_by_date_descending (db : database)
    (start_date end_date : option string) (l : list Expense.t) :
  FinanceDatabase.get_expenses db start_date end_date = Ok l ->
  Sorted (fun x y => String.leb (Expense.date y) (Expense.date x) = true) l.
Proof.
  rewrite get_expenses_in_range.
  destruct (expenses db) as [t|]; cbn [table_of bind]; [|discriminate].
  intros E. apply Ok_inj in E. subst l.
  apply order_by_sorted. intros x y. apply String.leb_total.
Qed.

Lemma get_expenses_by_date_descending_witness :
  FinanceDatabase.get_expenses three_expenses None None
  = Ok [hotel; coffee; pizza] /\
  Sorted (fun x y => String.leb (Expense.date y) (Expense.date x) = true)
    [hotel; coffee; pizza].
Proof.
  split; [reflexivity|].
  apply (get_expenses_by_date_descending three_expenses None None).
  reflexivity.
Defined.

(** X6.  An interval whose upper bound is before its lower bound is
    empty: with such non-empty bounds both queries return nothing,
    whatever is stored. *)
Theorem reversed_bounds_select_nothing (db : database)
    (start_date end_date : string) :
  start_date <> "" -> end_date <> "" ->
  String.ltb end_date start_date = true ->
  expenses db <> None ->
  FinanceDatabase.get_expenses db (Some start_date) (Some end_date) = Ok [] /\
  FinanceDatabase.get_category_totals db (Some start_date) (Some end_date)
    = Ok [].
Proof.
  intros Hs He Hlt Ht.
  rewrite get_expenses_in_range, get_category_totals_in_range.
  destruct (expenses db) as [t|]; [|congruence]. cbn [table_of bind].
  assert (Hnone : filter (fun r => in_range (Some start_date) (Some end_date)
                                     (Expense.date r)) (rows t) = []).
  { induction (rows t) as [|r l IH]; [reflexivity|]. cbn [filter].
    rewrite in_range_between by assumption. unfold between.
    destruct (String.leb start_date (Expense.date r)) eqn:H1;
      [|exact IH].
    destruct (String.leb (Expense.date r) end_date) eqn:H2; [|exact IH].
    assert (H3 := leb_trans _ _ _ H1 H2).
    apply ltb_not_leb in Hlt. congruence. }
  rewrite Hnone. split; reflexivity.
Qed.

Lemma reversed_bounds_select_nothing_witness :
  "2025-01-01" <> "" /\ "2024-01-01" <> "" /\
  String.ltb "2024-01-01" "2025-01-01" = true /\
  expenses three_expenses <> None /\
  FinanceDatabase.get_expenses three_expenses
    (Some "2025-01-01") (Some "2024-01-01") = Ok [] /\
  FinanceDatabase.get_category_totals three_expenses
    (Some "2025-01-01") (Some "2024-01-01") = Ok [].
Proof.
  split; [discriminate|]. split; [discriminate|]. split; [reflexivity|].
  split; [discriminate|].
  apply (reversed_bounds_select_nothing three_expenses
           "2025-01-01" "2024-01-01");
    [discriminate | discriminate | reflexivity | discriminate].
Defined.

(** The records of a bounded query, for use below. *)
Lemma get_expenses_within_bounds_aux
    (db : database) (start_date end_date : string) (l : list Expense.t) :
  start_date <> "" -> end_date <> "" ->
  FinanceDatabase.get_expenses db (Some start_date) (Some end_date) = Ok l ->
  forall r,
    In r l <->
    In r (expense_rows db) /\
    String.leb start_date (Expense.date r) = true /\
    String.leb (Expense.date r) end_date = true.
Proof.
  intros Hs He Hget r.
  rewrite get_expenses_in_range in Hget. unfold expense_rows.
  destruct (expenses db) as [t|]; cbn [table_of bind content] in *;
    [|discriminate].
  apply Ok_inj in Hget. subst l.
  rewrite order_by_In, filter_In, in_range_between by assumption.
  unfold between. rewrite andb_true_iff. reflexivity.
Qed.

(** X7.  A wider interval returns at least the records of a narrower one:
    with non-empty bounds, every record that [get_expenses] returns for
    [start_date, end_date] is returned for any interval around it. *)
Theorem wider_bounds_return_more (db : database)
    (start_date end_date start_date' end_date' : string)
    (l l' : list Expense.t) (r : Expense.t) :
  start_date <> "" -> end_date <> "" ->
  start_date' <> "" -> end_date' <> "" ->
  String.leb start_date' start_date = true ->
  String.leb end_date end_date' = true ->
  FinanceDatabase.get_expenses db (Some start_date) (Some end_date) = Ok l ->
  FinanceDatabase.get_expenses db (Some start_date') (Some end_date') = Ok l' ->
  In r l -> In r l'.
Proof.
  intros Hs He Hs' He' Hss Hee Hl Hl' Hr.
  apply (get_expenses_within_bounds_aux db start_date end_date l Hs He Hl)
    in Hr.
  apply (get_expenses_within_bounds_aux db start_date' end_date' l' Hs' He' Hl').
  destruct Hr as (Hin & H1 & H2). repeat split.
  - exact Hin.
  - apply leb_trans with start_date; assumption.
  - apply leb_trans with end_date; assumption.
Qed.

Lemma wider_bounds_return_more_witness :
  "2024-03-11" <> "" /\ "2024-03-31" <> "" /\
  "2024-03-01" <> "" /\ "2024-12-31" <> "" /\
  String.leb "2024-03-01" "2024-03-11" = true /\
  String.leb "2024-03-31" "2024-12-31" = true /\
  FinanceDatabase.get_expenses three_expenses
    (Some "2024-03-11") (Some "2024-03-31") = Ok [coffee] /\
  FinanceDatabase.get_expenses three_expenses
    (Some "2024-03-01") (Some "2024-12-31") = Ok [coffee; pizza] /\
  In coffee [coffee] /\ In coffee [coffee; pizza].
Proof.
  repeat (split; [first [discriminate | reflexivity | left; reflexivity]|]).
  apply (wider_bounds_return_more three_expenses
           "2024-03-11" "2024-03-31" "2024-03-01" "2024-12-31"
           [coffee] [coffee; pizza] coffee);
    first [discriminate | reflexivity | left; reflexivity].
Defined.

(** X8.  An expense dated outside non-empty bounds does not show in the
    query with these bounds: [get_expenses] returns after [add_expense]
    what it returned before. *)
Theorem add_expense_outside_bounds (db db' : database)
    (date : string) (amount : Q)
    (description category payment_method now : string)
    (start_date end_date : string) :
  start_date <> "" -> end_date <> "" ->
  between start_date end_date date = false ->
  FinanceDatabase.add_expense db date amount description category
    payment_method now = Ok db' ->
  FinanceDatabase.get_expenses db' (Some start_date) (Some end_date) =
  FinanceDatabase.get_expenses db (Some start_date) (Some end_date) /\
  FinanceDatabase.get_category_totals db' (Some start_date) (Some end_date) =
  FinanceDatabase.get_category_totals db (Some start_date) (Some end_date).
Proof.
  intros Hs He Hout Hadd.
  destruct (add_expense_rows _ _ _ _ _ _ _ _ Hadd)
    as (t & id & Ht & _ & Hrows & Hsome & _).
  rewrite !get_expenses_in_range, !get_category_totals_in_range.
  unfold expense_rows in Hrows.
  destruct (expenses db') as [t'|]; [|congruence].
  cbn [content] in Hrows. rewrite Ht. cbn [table_of bind].
  rewrite Hrows, filter_app. cbn [filter Expense.date].
  rewrite (in_range_between start_date end_date date Hs He), Hout, app_nil_r.
  split; reflexivity.
Qed.

Lemma add_expense_outside_bounds_witness :
  "2025-01-01" <> "" /\ "2025-12-31" <> "" /\
  between "2025-01-01" "2025-12-31" "2024-03-10" = false /\
  FinanceDatabase.add_expense one_expense "2024-03-10" (18 # 1)
    "pizza delivery" "Food & Dining" "Cash" "2024-03-10 20:15:00"
  = Ok two_expenses /\
  FinanceDatabase.get_expenses two_expenses
    (Some "2025-01-01") (Some "2025-12-31") =
  FinanceDatabase.get_expenses one_expense
    (Some "2025-01-01") (Some "2025-12-31") /\
  FinanceDatabase.get_category_totals two_expenses
    (Some "2025-01-01") (Some "2025-12-31") =
  FinanceDatabase.get_category_totals one_expense
    (Some "2025-01-01") (Some "2025-12-31").
Proof.
  split; [discriminate|]. split; [discriminate|]. split; [reflexivity|].
  split; [reflexivity|].
  apply (add_expense_outside_bounds one_expense two_expenses "2024-03-10"
           (18 # 1) "pizza delivery" "Food & Dining" "Cash"
           "2024-03-10 20:15:00" "2025-01-01" "2025-12-31");
    [discriminate | discriminate | reflexivity | reflexivity].
Defined.



(** X10.  The two queries agree: for the same bounds, given or not, the
    categories that [get_category_totals] lists are those of the records
    that [get_expenses] returns, each listed once. *)
Theorem totals_list_categories_of_expenses (db : database)
    (start_date end_date : option string)
    (l : list Expense.t) (totals : list (string * Q)) :
  FinanceDatabase.get_expenses db start_date end_date = Ok l ->
  FinanceDatabase.get_category_totals db start_date end_date = Ok totals ->
  NoDup (map fst totals) /\
  forall c, In c (map fst totals) <-> In c (map Expense.category l).
Proof.
  rewrite get_expenses_in_range, get_category_totals_in_range.
  destruct (expenses db) as [t|]; cbn [table_of bind]; [|discriminate].
  intros El Et. apply Ok_inj in El. apply Ok_inj in Et. subst l totals.
  destruct (totals_by_category
              (filter (fun r => in_range start_date end_date (Expense.date r))
                 (rows t))) as (Hnd & Hkeys & _).
  split; [exact Hnd|]. intros c. rewrite Hkeys, in_map_iff.
  split; intros (r & H1 & H2); exists r.
  - split; [exact H2 | apply order_by_In, H1].
  - split; [apply order_by_In in H2; exact H2 | exact H1].
Qed.

Lemma totals_list_categories_of_expenses_witness :
  FinanceDatabase.get_expenses three_expenses None None
  = Ok [hotel; coffee; pizza] /\
  FinanceDatabase.get_category_totals three_expenses None None
  = Ok [("Travel", 120 # 1); ("Food & Dining", 43 # 2)]%Q /\
  NoDup ["Travel"; "Food & Dining"] /\
  forall c, In c ["Travel"; "Food & Dining"] <->
            In c (map Expense.category [hotel; coffee; pizza]).
Proof.
  split; [reflexivity|]. split; [reflexivity|].
  apply (totals_list_categories_of_expenses three_expenses None None
           [hotel; coffee; pizza]
           [("Travel", 120 # 1); ("Food & Dining", 43 # 2)]%Q);
    reflexivity.
Defined.





Lemma add_expense_appends_rows (db db' : database)
    (date : string) (amount : Q)
    (description category payment_method now : string) :
  FinanceDatabase.add_expense db date amount description category
    payment_method now = Ok db' ->
  exists r,
    expense_rows db' = expense_rows db ++ [r] /\
    budgets db' = budgets db.
Proof.
  intros H. apply add_expense_rows in H.
  destruct H as (t & id & Ht & _ & Hrows & _ & Hb & _).
  eexists. unfold expense_rows at 2. rewrite Ht. cbn [content].
  split; [exact Hrows | exact Hb].
Qed.

Lemma run_appends (c : call) (db db' : database) :
  run c db = Ok db' ->
  (exists l, expense_rows db' = expense_rows db ++ l) /\
  budget_rows db' = budget_rows db.
Proof.
  destruct c as [|date amount description category payment_method now|s e|s e];
    simpl.
  - intros E. apply Ok_inj in E. subst db'. split.
    + exists []. rewrite app_nil_r. unfold expense_rows.
      destruct db as [[?|] ? ?]; reflexivity.
    + unfold budget_rows. destruct db as [? [?|] ?]; reflexivity.
  - intros E. apply add_expense_appends_rows in E.
    destruct E as (r & Hr & Hb). split; [exists [r]; exact Hr|].
    unfold budget_rows. rewrite Hb. reflexivity.
  - destruct (FinanceDatabase.get_expenses db s e); simpl; [|discriminate].
    intros E. apply Ok_inj in E. subst db'.
    split; [exists []; rewrite app_nil_r|]; reflexivity.
  - destruct (FinanceDatabase.get_category_totals db s e); simpl; [|discriminate].
    intros E. apply Ok_inj in E. subst db'.
    split; [exists []; rewrite app_nil_r|]; reflexivity.
Qed.

(** X12.  The ledger only grows.  After any sequence of calls of the
    methods of [FinanceDatabase], the expenses stored before are still
    there, unchanged and in their order, followed by the new ones; and no
    budget row has been written. *)
Theorem calls_only_append (cs : list call) (db db' : database) :
  run_all cs db = Ok db' ->
  (exists l, expense_rows db' = expense_rows db ++ l) /\
  budget_rows db' = budget_rows db.
Proof.
  revert db. induction cs as [|c cs IH]; simpl; intros db E.
  - apply Ok_inj in E. subst db'.
    split; [exists []; rewrite app_nil_r|]; reflexivity.
  - destruct (run c db) as [db1|] eqn:Hc; simpl in E; [|discriminate].
    destruct (IH _ E) as [[l Hl] Hb].
    destruct (run_appends c db db1 Hc) as [[l1 Hl1] Hb1]. split.
    + exists (l1 ++ l). rewrite Hl, Hl1, app_assoc. reflexivity.
    + congruence.
Qed.

Lemma calls_only_append_witness :
  run_all [call_add_expense "2024-03-10" (18 # 1) "pizza delivery"
             "Food & Dining" "Cash" "2024-03-10 20:15:00";
           call_get_category_totals None None;
           call_init_database]
    one_expense = Ok two_expenses /\
  (exists l, expense_rows two_expenses = expense_rows one_expense ++ l) /\
  budget_rows two_expenses = budget_rows one_expense.
Proof.
  split; [reflexivity|].
  apply (calls_only_append
           [call_add_expense "2024-03-10" (18 # 1) "pizza delivery"
              "Food & Dining" "Cash" "2024-03-10 20:15:00";
            call_get_category_totals None None;
            call_init_database]
           one_expense).
  reflexivity.
Defined.

(** * Properties of the window *)

Section WindowFacts.
Import Window.

Variable float : string -> option Q.
Variable lower : string -> string.
Variable two_decimals : Q -> string.

Lemma is_empty_false (s : string) : is_empty s = false <-> s <> "".
Proof. destruct s; simpl; split; congruence. Qed.

Lemma refresh_data_keeps (self : t) :
  db (fst (refresh_data two_decimals self)) = db self /\
  amount_var (fst (refresh_data two_decimals self)) = amount_var self /\
  description_var (fst (refresh_data two_decimals self)) = description_var self /\
  category_var (fst (refresh_data two_decimals self)) = category_var self /\
  date_var (fst (refresh_data two_decimals self)) = date_var self /\
  payment_var (fst (refresh_data two_decimals self)) = payment_var self.
Proof.
  unfold refresh_data, refresh_expenses_table.
  destruct (FinanceDatabase.get_expenses _ _ _); simpl; repeat split.
Qed.

(** The form lets an expense through when its four checks pass. *)
Lemma add_expense_checks (now : string) (self : t) (amount : Q) :
  float (amount_var self) = Some amount ->
  date_var self <> "" -> ~ (amount == 0)%Q ->
  description_var self <> "" -> category_var self <> "" ->
  add_expense float two_decimals now self =
  match FinanceDatabase.add_expense (db self) (date_var self) amount
          (description_var self) (category_var self) (payment_var self) now with
  | Raise e => (self, [uncaught e])
  | Ok db' =>
      let (self', events) :=
        refresh_data two_decimals
          (Make db' (categorizer self) (date_var self) "" "" ""
             (payment_var self) (start_date_var self) (end_date_var self)
             (budget_category_var self) (budget_amount_var self)
             (expenses_tree self)) in
      (self', dialog (showinfo "Success" "Expense added successfully!") :: events)
  end.
Proof.
  intros Hf Hd Ha Hde Hc. unfold add_expense. rewrite Hf.
  apply is_empty_false in Hd, Hde, Hc. rewrite Hd, Hde, Hc.
  destruct (Qeq_bool amount 0) eqn:Hz;
    [apply Qeq_bool_iff in Hz; contradiction|].
  reflexivity.
Qed.

(** X13.  The form stores nothing when a check fails: with an empty date,
    description or category, with an amount that is not a number, or with
    the amount zero, the window and its database stay as they are and an
    error dialog is all that happens. *)
Theorem form_rejects_incomplete_expense (now : string) (self : t) :
  date_var self = "" \/ description_var self = "" \/ category_var self = "" \/
  float (amount_var self) = None \/
  (exists amount, float (amount_var self) = Some amount /\ (amount == 0)%Q) ->
  fst (add_expense float two_decimals now self) = self /\
  exists message,
    snd (add_expense float two_decimals now self)
    = [dialog (showerror "Error" message)].
Proof.
  intros H. unfold add_expense.
  destruct (float (amount_var self)) as [amount|] eqn:Hf.
  - assert (Hbad : is_empty (date_var self) || Qeq_bool amount 0
                   || is_empty (description_var self)
                   || is_empty (category_var self) = true).
    { destruct H as [H|[H|[H|[H|(a & Ha & Hz)]]]].
      - rewrite H. reflexivity.
      - rewrite H. simpl. rewrite orb_true_r. reflexivity.
      - rewrite H. simpl. rewrite orb_true_r. reflexivity.
      - discriminate H.
      - injection Ha as <-. apply Qeq_bool_iff in Hz. rewrite Hz.
        rewrite orb_true_r. reflexivity. }
    rewrite Hbad. split; [reflexivity | eexists; reflexivity].
  - split; [reflexivity | eexists; reflexivity].
Qed.

(** X14.  The form stores an expense when the checks pass and the
    insertion succeeds: the database becomes what [add_expense] of the
    database gives for the values of the form, the amount, description and
    category fields are cleared, date and payment method stay, the table
    shows the records of the date filter on the new database, and a
    success dialog is shown. *)
Theorem form_stores_expense (now : string) (self : t) (amount : Q)
    (db' : database) :
  float (amount_var self) = Some amount ->
  date_var self <> "" -> ~ (amount == 0)%Q ->
  description_var self <> "" -> category_var self <> "" ->
  FinanceDatabase.add_expense (db self) (date_var self) amount
    (description_var self) (category_var self) (payment_var self) now
  = Ok db' ->
  exists l,
    FinanceDatabase.get_expenses db'
      (Some (start_date_var self)) (Some (end_date_var self)) = Ok l /\
    add_expense float two_decimals now self =
    (Make db' (categorizer self) (date_var self) "" "" "" (payment_var self)
       (start_date_var self) (end_date_var self)
       (budget_category_var self) (budget_amount_var self)
       (map (tree_row_of two_decimals) l),
     [dialog (showinfo "Success" "Expense added successfully!")]).
Proof.
  intros Hf Hd Ha Hde Hc Hadd.
  rewrite (add_expense_checks now self amount Hf Hd Ha Hde Hc), Hadd.
  unfold refresh_data, refresh_expenses_table. cbn [db start_date_var end_date_var].
  destruct (add_expense_rows _ _ _ _ _ _ _ _ Hadd)
    as (_ & _ & _ & _ & _ & Hsome & _).
  rewrite get_expenses_in_range.
  destruct (expenses db') as [t'|]; [|congruence]. cbn [table_of bind].
  eexists. split; reflexivity.
Qed.

(** X15.  The stored expense shows in the table at once when the date
    filter covers its date. *)
Theorem stored_expense_is_listed (now : string) (self : t) (amount : Q)
    (db' : database) :
  float (amount_var self) = Some amount ->
  date_var self <> "" -> ~ (amount == 0)%Q ->
  description_var self <> "" -> category_var self <> "" ->
  FinanceDatabase.add_expense (db self) (date_var self) amount
    (description_var self) (category_var self) (payment_var self) now
  = Ok db' ->
  String.leb (start_date_var self) (date_var self) = true ->
  String.leb (date_var self) (end_date_var self) = true ->
  In (date_var self, String.append "$" (two_decimals amount),
      description_var self, category_var self, payment_var self)
    (expenses_tree (fst (add_expense float two_decimals now self))).
Proof.
  intros Hf Hd Ha Hde Hc Hadd Hs He.
  rewrite (add_expense_checks now self amount Hf Hd Ha Hde Hc), Hadd.
  unfold refresh_data, refresh_expenses_table. cbn [db start_date_var end_date_var].
  destruct (add_expense_rows _ _ _ _ _ _ _ _ Hadd)
    as (t & id & _ & _ & Hrows & Hsome & _).
  rewrite get_expenses_in_range. unfold expense_rows in Hrows.
  destruct (expenses db') as [t'|]; [|congruence].
  cbn [content] in Hrows. cbn [table_of bind fst expenses_tree with_tree].
  apply in_map_iff.
  exists (Expense.Row id (date_var self) amount (description_var self)
            (category_var self) (payment_var self) now).
  split; [reflexivity|].
  apply order_by_In, filter_In. split.
  - rewrite Hrows. apply in_or_app. right. left. reflexivity.
  - apply in_range_covering; assumption.
Qed.
End WindowFacts.

Lemma form_rejects_incomplete_expense_witness :
  ("2024-03-10" = "" \/ "pizza delivery" = "" \/ "Food & Dining" = "" \/
   whole_float "0" = None \/
   (exists amount, whole_float "0" = Some amount /\ (amount == 0)%Q)) /\
  fst (Window.add_expense whole_float whole_text "2024-03-10 20:15:00"
         (filled_window fresh_ledger "0"))
  = filled_window fresh_ledger "0".
Proof.
  assert (H : "2024-03-10" = "" \/ "pizza delivery" = "" \/
              "Food & Dining" = "" \/ whole_float "0" = None \/
              (exists amount, whole_float "0" = Some amount /\ (amount == 0)%Q)).
  { right. right. right. right. exists (0 # 1)%Q.
    split; reflexivity. }
  split; [exact H|].
  apply (form_rejects_incomplete_expense whole_float whole_text
           "2024-03-10 20:15:00" (filled_window fresh_ledger "0") H).
Defined.

Lemma form_stores_expense_witness :
  whole_float "18" = Some (18 # 1)%Q /\
  "2024-03-10" <> "" /\ ~ (18 # 1 == 0)%Q /\
  "pizza delivery" <> "" /\ "Food & Dining" <> "" /\
  FinanceDatabase.add_expense fresh_ledger "2024-03-10" (18 # 1)
    "pizza delivery" "Food & Dining" "Cash" "2024-03-10 20:15:00"
  = Ok (ledger [pizza_first] 1) /\
  exists l,
    FinanceDatabase.get_expenses (ledger [pizza_first] 1)
      (Some "2024-03-01") (Some "2024-03-31") = Ok l /\
    Window.add_expense whole_float whole_text "2024-03-10 20:15:00"
      (filled_window fresh_ledger "18") =
    (Window.Make (ledger [pizza_first] 1)
       (ExpenseCategorizer.init lookup_fit true None)
       "2024-03-10" "" "" "" "Cash" "2024-03-01" "2024-03-31" "" ""
       (map (Window.tree_row_of whole_text) l),
     [Window.dialog
        (Window.showinfo "Success" "Expense added successfully!")]).
Proof.
  split; [reflexivity|]. split; [discriminate|]. split; [discriminate|].
  split; [discriminate|]. split; [discriminate|]. split; [reflexivity|].
  apply (form_stores_expense whole_float whole_text "2024-03-10 20:15:00"
           (filled_window fresh_ledger "18") (18 # 1)%Q
           (ledger [pizza_first] 1));
    first [reflexivity | discriminate].
Defined.

Lemma stored_expense_is_listed_witness :
  whole_float "18" = Some (18 # 1)%Q /\
  "2024-03-10" <> "" /\ ~ (18 # 1 == 0)%Q /\
  "pizza delivery" <> "" /\ "Food & Dining" <> "" /\
  FinanceDatabase.add_expense fresh_ledger "2024-03-10" (18 # 1)
    "pizza delivery" "Food & Dining" "Cash" "2024-03-10 20:15:00"
  = Ok (ledger [pizza_first] 1) /\
  String.leb "2024-03-01" "2024-03-10" = true /\
  String.leb "2024-03-10" "2024-03-31" = true /\
  In ("2024-03-10", "$18.00", "pizza delivery", "Food & Dining", "Cash")
    (Window.expenses_tree
       (fst (Window.add_expense whole_float whole_text "2024-03-10 20:15:00"
               (filled_window fresh_ledger "18")))).
Proof.
  split; [reflexivity|]. split; [discriminate|]. split; [discriminate|].
  split; [discriminate|]. split; [discriminate|]. split; [reflexivity|].
  split; [reflexivity|]. split; [reflexivity|].
  apply (stored_expense_is_listed whole_float whole_text "2024-03-10 20:15:00"
           (filled_window fresh_ledger "18") (18 # 1)%Q
           (ledger [pizza_first] 1));
    first [reflexivity | discriminate].
Defined.

Lemma add_expense_appends_rows_full (db db' : database)
    (date : string) (amount : Q)
    (description category payment_method now : string) :
  FinanceDatabase.add_expense db date amount description category
    payment_method now = Ok db' ->
  exists id,
    expense_rows db' =
      expense_rows db ++
      [Expense.Row id date amount description category payment_method now] /\
    budgets db' = budgets db /\ income db' = income db.
Proof.
  intros H. apply add_expense_rows in H.
  destruct H as (t & id & Ht & _ & Hrows & _ & Hb & Hi).
  exists id. unfold expense_rows at 2. rewrite Ht. cbn [content].
  repeat split; assumption.
Qed.

Section SessionFacts.
Import Window.

Variable float : string -> option Q.
Variable lower : string -> string.
Variable two_decimals : Q -> string.

(** An action leaves the database as it is, unless it is the button of
    the form with checks passed and an insertion that succeeds. *)
Lemma perform_database (a : action) (self : t) :
  db (fst (perform float lower two_decimals a self)) = db self \/
  exists now amount,
    float (amount_var self) = Some amount /\
    date_var self <> "" /\ ~ (amount == 0)%Q /\
    description_var self <> "" /\ category_var self <> "" /\
    FinanceDatabase.add_expense (db self) (date_var self) amount
      (description_var self) (category_var self) (payment_var self) now
    = Ok (db (fst (perform float lower two_decimals a self))).
Proof.
  destruct a; cbn [perform fst db]; try (left; reflexivity).
  - left. unfold auto_categorize.
    destruct (is_empty _); [reflexivity|].
    destruct (ExpenseCategorizer.categorize _ _ _); reflexivity.
  - unfold add_expense.
    destruct (float (amount_var self)) as [amount|] eqn:Hf;
      [|left; reflexivity].
    destruct (is_empty (date_var self)) eqn:Hd; [left; reflexivity|].
    destruct (Qeq_bool amount 0) eqn:Hz; [left; reflexivity|].
    destruct (is_empty (description_var self)) eqn:Hde;
      [left; reflexivity|].
    destruct (is_empty (category_var self)) eqn:Hc; [left; reflexivity|].
    cbn [orb].
    destruct (FinanceDatabase.add_expense _ _ _ _ _ _ _) as [db'|e] eqn:Hadd;
      [|left; reflexivity].
    right. exists now, amount.
    apply is_empty_false in Hd, Hde, Hc.
    repeat split; try assumption.
    + intros Hq. apply Qeq_bool_iff in Hq. congruence.
    + unfold refresh_data, refresh_expenses_table.
      cbn [db start_date_var end_date_var].
      destruct (FinanceDatabase.get_expenses db' _ _); exact Hadd.
  - left. unfold upload_receipt. destruct (is_empty _); reflexivity.
  - left. unfold refresh_data, refresh_expenses_table.
    destruct (FinanceDatabase.get_expenses _ _ _); reflexivity.
  - left. unfold set_budget. destruct (_ || _); [reflexivity|].
    destruct (float _); reflexivity.
Qed.

(** X16.  Whatever the user types and presses, every expense in the
    database has its date, description and category filled in and an
    amount other than zero, when those that were there at the start
    have. *)
Theorem session_stores_filled_in_expenses (actions : list action) (self : t) :
  Forall filled_in (expense_rows (db self)) ->
  Forall filled_in
    (expense_rows (db (session float lower two_decimals actions self))).
Proof.
  revert self. induction actions as [|a actions IH]; intros self H;
    cbn [session]; [exact H|].
  apply IH.
  destruct (perform_database a self)
    as [->|(now & amount & _ & Hd & Ha & Hde & Hc & Hadd)]; [exact H|].
  apply add_expense_appends_rows_full in Hadd. destruct Hadd as (id & -> & _).
  apply Forall_app. split; [exact H|].
  constructor; [|constructor]. repeat split; assumption.
Qed.

(** X17.  Whatever the user types and presses, the stored expenses stay,
    unchanged and in their order, with new ones after them; the budgets
    and the income tables are never written, not even by the button that
    sets a budget. *)
Theorem session_only_appends (actions : list action) (self : t) :
  (exists l,
      expense_rows (db (session float lower two_decimals actions self))
      = expense_rows (db self) ++ l) /\
  budgets (db (session float lower two_decimals actions self))
  = budgets (db self) /\
  income (db (session float lower two_decimals actions self))
  = income (db self).
Proof.
  revert self. induction actions as [|a actions IH]; intros self;
    cbn [session].
  - split; [exists []; rewrite app_nil_r|split]; reflexivity.
  - destruct (IH (fst (perform float lower two_decimals a self)))
      as ([l Hl] & Hb & Hi).
    rewrite Hl, Hb, Hi.
    destruct (perform_database a self)
      as [->|(now & amount & _ & _ & _ & _ & _ & Hadd)].
    + split; [exists l; reflexivity | split; reflexivity].
    + apply add_expense_appends_rows_full in Hadd.
      destruct Hadd as (id & -> & Hb' & Hi').
      split; [|split; assumption].
      eexists. rewrite <- app_assoc. reflexivity.
Qed.
End SessionFacts.

Lemma session_stores_filled_in_expenses_witness :
  Forall filled_in (expense_rows fresh_ledger) /\
  expense_rows
    (Window.db
       (Window.session whole_float lower_text whole_text
          [Window.type_amount "0";
           Window.press_add_expense "2024-03-10 20:15:00";
           Window.type_amount "18";
           Window.press_add_expense "2024-03-10 20:15:00"]
          (filled_window fresh_ledger ""))) = [pizza_first] /\
  Forall filled_in
    (expense_rows
       (Window.db
          (Window.session whole_float lower_text whole_text
             [Window.type_amount "0";
              Window.press_add_expense "2024-03-10 20:15:00";
              Window.type_amount "18";
              Window.press_add_expense "2024-03-10 20:15:00"]
             (filled_window fresh_ledger "")))).
Proof.
  assert (H : Forall filled_in (expense_rows fresh_ledger)) by constructor.
  split; [exact H|]. split; [reflexivity|].
  apply (session_stores_filled_in_expenses whole_float lower_text whole_text
           [Window.type_amount "0";
            Window.press_add_expense "2024-03-10 20:15:00";
            Window.type_amount "18";
            Window.press_add_expense "2024-03-10 20:15:00"]
           (filled_window fresh_ledger "") H).
Defined.

(** * Further properties of the categorizer *)

(** X18.  [categorize] decides by the largest class probability.  With
    a model that predicts [p] for the lowercased description and gives
    class probabilities for it, the answer is [p] when one of them exceeds
    0.3, and ["Miscellaneous"] when none does. *)
Theorem categorize_by_largest_probability (lower : string -> string)
    (self : ExpenseCategorizer.t) (m : Pipeline)
    (description p : string) (q : Q) (probabilities : list Q) :
  ExpenseCategorizer.model self = Some m ->
  predict m (lower description) = Ok p ->
  predict_proba m (lower description) = Ok (q :: probabilities) ->
  ((exists c, In c (q :: probabilities) /\ (threshold < c)%Q) ->
   ExpenseCategorizer.categorize lower self description = Ok p) /\
  ((forall c, In c (q :: probabilities) -> (c <= threshold)%Q) ->
   ExpenseCategorizer.categorize lower self description = Ok "Miscellaneous").
Proof.
  intros Hm Hp Hpr.
  destruct (max_of (q :: probabilities)) as [confidence|e] eqn:Hmax;
    [|discriminate Hmax].
  destruct (max_of_largest _ _ Hmax) as [Hin Hle].
  destruct (categorize_threshold lower self m description p
              (q :: probabilities) confidence Hm Hp Hpr Hmax) as [Hgt Hlow].
  split.
  - intros (c & Hc & Hlt). apply Hgt.
    apply Qlt_le_trans with c; [exact Hlt | apply Hle, Hc].
  - intros Hall. apply Hlow, Hall, Hin.
Qed.

Lemma categorize_by_largest_probability_witness :
  ExpenseCategorizer.model (ExpenseCategorizer.init lookup_fit true None)
  = Some (lookup_fit (map fst ExpenseCategorizer.training_data)
            (map snd ExpenseCategorizer.training_data)) /\
  predict (lookup_fit (map fst ExpenseCategorizer.training_data)
             (map snd ExpenseCategorizer.training_data))
    (lower_text "Uber Ride") = Ok "Transportation" /\
  predict_proba (lookup_fit (map fst ExpenseCategorizer.training_data)
                   (map snd ExpenseCategorizer.training_data))
    (lower_text "Uber Ride") = Ok [(9 # 10)%Q; (1 # 10)%Q] /\
  ExpenseCategorizer.categorize lower_text
    (ExpenseCategorizer.init lookup_fit true None) "Uber Ride"
  = Ok "Transportation".
Proof.
  split; [reflexivity|]. split; [reflexivity|]. split; [reflexivity|].
  destruct (categorize_by_largest_probability lower_text
              (ExpenseCategorizer.init lookup_fit true None)
              (lookup_fit (map fst ExpenseCategorizer.training_data)
                 (map snd ExpenseCategorizer.training_data))
              "Uber Ride" "Transportation" (9 # 10)%Q [(1 # 10)%Q]
              eq_refl eq_refl eq_refl) as [Hgt _].
  apply Hgt. exists (9 # 10)%Q. split; [left; reflexivity | reflexivity].
Defined.

(** X19.  [categorize] never passes on a prediction the model is not
    confident of: an answer other than ["Miscellaneous"] is the prediction
    of the model for the lowercased description, and the largest of the
    class probabilities for it exceeds 0.3. *)
Theorem categorize_only_confident (lower : string -> string)
    (self : ExpenseCategorizer.t) (description c : string) :
  ExpenseCategorizer.categorize lower self description = Ok c ->
  c <> "Miscellaneous" ->
  exists m probabilities confidence,
    ExpenseCategorizer.model self = Some m /\
    predict m (lower description) = Ok c /\
    predict_proba m (lower description) = Ok probabilities /\
    In confidence probabilities /\
    (forall p, In p probabilities -> (p <= confidence)%Q) /\
    (threshold < confidence)%Q.
Proof.
  unfold ExpenseCategorizer.categorize, ExpenseCategorizer.categorize_try.
  destruct (ExpenseCategorizer.model self) as [m|]; cbn [bind];
    [|intros E; apply Ok_inj in E; congruence].
  destruct (predict m (lower description)) as [p|e] eqn:Hp; cbn [bind];
    [|intros E; apply Ok_inj in E; congruence].
  destruct (predict_proba m (lower description)) as [l|e] eqn:Hpr;
    cbn [bind]; [|intros E; apply Ok_inj in E; congruence].
  destruct (max_of l) as [q|e] eqn:Hmax; cbn [bind];
    [|intros E; apply Ok_inj in E; congruence].
  destruct (Qle_bool q threshold) eqn:Hq;
    intros E Hc; apply Ok_inj in E; [congruence|]. subst p.
  destruct (max_of_largest l q Hmax) as [Hin Hle].
  exists m, l, q.
  split; [reflexivity|]. split; [exact Hp|]. split; [exact Hpr|].
  split; [exact Hin|]. split; [exact Hle|].
  apply Qnot_le_lt. intros H. apply Qle_bool_iff in H. congruence.
Qed.

Lemma categorize_only_confident_witness :
  ExpenseCategorizer.categorize lower_text
    (ExpenseCategorizer.init lookup_fit true None) "Uber Ride"
  = Ok "Transportation" /\
  "Transportation" <> "Miscellaneous" /\
  exists m probabilities confidence,
    ExpenseCategorizer.model (ExpenseCategorizer.init lookup_fit true None)
    = Some m /\
    predict m (lower_text "Uber Ride") = Ok "Transportation" /\
    predict_proba m (lower_text "Uber Ride") = Ok probabilities /\
    In confidence probabilities /\
    (forall p, In p probabilities -> (p <= confidence)%Q) /\
    (threshold < confidence)%Q.
Proof.
  split; [reflexivity|]. split; [discriminate|].
  apply (categorize_only_confident lower_text
           (ExpenseCategorizer.init lookup_fit true None)
           "Uber Ride" "Transportation");
    [reflexivity | discriminate].
Defined.

(** X20.  A model saved at one start is the model of the next start.
    When the file is absent or cannot be loaded and the model can be
    saved, a second start, on the file that the first one left, ends in the
    state of the first: the stored model is loaded and nothing is fitted
    again. *)
Theorem saved_model_is_loaded_again
    (fit fit' : list string -> list string -> Pipeline)
    (can_write : bool) (file : ExpenseCategorizer.pickle_file) :
  file = None \/ (exists e, file = Some (Raise e)) ->
  ExpenseCategorizer.init fit' can_write
    (ExpenseCategorizer.pkl (ExpenseCategorizer.init fit true file))
  = ExpenseCategorizer.init fit true file /\
  ExpenseCategorizer.model (ExpenseCategorizer.init fit true file)
  = Some (fit (map fst ExpenseCategorizer.training_data)
            (map snd ExpenseCategorizer.training_data)).
Proof.
  intros [->|[e ->]]; split; reflexivity.
Qed.

Lemma saved_model_is_loaded_again_witness :
  (@None (result exception (option Pipeline)) = None \/
   exists e, @None (result exception (option Pipeline)) = Some (Raise e)) /\
  ExpenseCategorizer.init (fun _ _ => lookup_fit [] []) false
    (ExpenseCategorizer.pkl (ExpenseCategorizer.init lookup_fit true None))
  = ExpenseCategorizer.init lookup_fit true None /\
  ExpenseCategorizer.model (ExpenseCategorizer.init lookup_fit true None)
  = Some (lookup_fit (map fst ExpenseCategorizer.training_data)
            (map snd ExpenseCategorizer.training_data)).
Proof.
  assert (H : @None (result exception (option Pipeline)) = None \/
              exists e, @None (result exception (option Pipeline))
                        = Some (Raise e))
    by (left; reflexivity).
  split; [exact H|].
  apply (saved_model_is_loaded_again lookup_fit (fun _ _ => lookup_fit [] [])
           false None H).
Defined.

(** X21.  The button that suggests a category never touches the database,
    does nothing on an empty description, and otherwise fills the category
    field with the answer of [categorize]; with a model fitted on the
    bundled examples that is one of the eleven categories. *)
Theorem auto_categorize_suggests_category (lower : string -> string)
    (fit : list string -> list string -> Pipeline)
    (can_write : bool) (file : ExpenseCategorizer.pickle_file)
    (self : Window.t) :
  predicts_fitted_labels fit ->
  saved_by_categorizer fit file ->
  Window.categorizer self = ExpenseCategorizer.init fit can_write file ->
  Window.db (fst (Window.auto_categorize lower self)) = Window.db self /\
  (Window.description_var self = "" ->
   Window.auto_categorize lower self = (self, [])) /\
  (Window.description_var self <> "" ->
   ExpenseCategorizer.categorize lower (Window.categorizer self)
     (Window.description_var self)
   = Ok (Window.category_var (fst (Window.auto_categorize lower self))) /\
   In (Window.category_var (fst (Window.auto_categorize lower self)))
     ExpenseCategorizer.categories).
Proof.
  intros Hfit Hfile Hcat. unfold Window.auto_categorize.
  destruct (categorize_returns lower (Window.categorizer self)
              (Window.description_var self)) as [c Hc].
  rewrite Hc. split; [|split].
  - destruct (Window.is_empty _); reflexivity.
  - intros ->. reflexivity.
  - intros Hd. apply is_empty_false in Hd. rewrite Hd.
    cbn [fst Window.category_var]. split; [reflexivity|].
    apply categorize_answer in Hc. destruct Hc as [->|(m & Hm & Hp)].
    + simpl. tauto.
    + rewrite Hcat, (init_model lower fit can_write file Hfile) in Hm.
      injection Hm as <-. apply Hfit in Hp.
      apply training_labels_in_categories, Hp.
Qed.

Lemma auto_categorize_suggests_category_witness :
  predicts_fitted_labels lookup_fit /\
  saved_by_categorizer lookup_fit None /\
  Window.categorizer (filled_window fresh_ledger "18")
  = ExpenseCategorizer.init lookup_fit true None /\
  Window.category_var
    (fst (Window.auto_categorize lower_text
            (Window.Make fresh_ledger
               (ExpenseCategorizer.init lookup_fit true None)
               "2024-03-10" "18" "Pizza Delivery" "" "Cash"
               "2024-03-01" "2024-03-31" "" "" [])))
  = "Food & Dining" /\
  Window.db (fst (Window.auto_categorize lower_text
                    (filled_window fresh_ledger "18")))
  = Window.db (filled_window fresh_ledger "18").
Proof.
  assert (Hfit : predicts_fitted_labels lookup_fit).
  { intros X y d p. unfold lookup_fit. cbn [predict].
    destruct (label_of X y d) as [l|] eqn:Hl; [|discriminate].
    intros E. apply Ok_inj in E. subst l.
    revert y Hl. induction X as [|x X IH]; intros [|l y]; simpl;
      try discriminate.
    destruct (String.eqb x d).
    - intros E. injection E as ->. left. reflexivity.
    - intros E. right. apply IH, E. }
  assert (Hfile : saved_by_categorizer lookup_fit None)
    by (left; reflexivity).
  split; [exact Hfit|]. split; [exact Hfile|]. split; [reflexivity|].
  split; [reflexivity|].
  apply (auto_categorize_suggests_category lower_text lookup_fit true None
           (filled_window fresh_ledger "18") Hfit Hfile eq_refl).
Defined.
